(** * scripts/run_dpo.py: DPO reward-model evaluation script

    A shallow embedding of [scripts/run_dpo.py] and the properties of its
    command line, its batched inference loop, its per-subset scoring and
    its result files.

    Conventions of the embedding:
    - Python exceptions are values of [exn]; a computation that can raise
      returns a [result].  The tail of [main], which touches the local
      file system and the remote results repository, runs in the monad
      [Run], which threads a [World] and keeps the world reached when an
      exception is raised.
    - Python floats are IEEE binary64 values, [spec_float] with
      [prec = 53] and [emax = 1024].
    - Third-party libraries (accelerate, fastchat, transformers, torch,
      trl, huggingface_hub) and the repository's own [herm] package are
      interfaces: the classes [Libraries] and [Herm].
    - Logging and [print] calls write to the console only and are left
      out. *)

From Stdlib Require Import ZArith SpecFloat Ascii.
From stdpp Require Import base option list sorting strings gmap.

Local Open Scope Z_scope.

(** ** Exceptions and fallible computations *)

Inductive exn : Type :=
| IndexError
| AttributeError
| ValueError
| ZeroDivisionError
| FileExistsError
| FileNotFoundError
| IsADirectoryError
| LibraryError (msg : string).

Inductive result (A : Type) : Type :=
| Ok (a : A)
| Raise (e : exn).
Arguments Ok {A} a.
Arguments Raise {A} e.

#[global] Instance result_ret : MRet result := fun A a => Ok a.
#[global] Instance result_bind : MBind result := fun A B f m =>
  match m with
  | Ok a => f a
  | Raise e => Raise e
  end.

(** [[f(x) for x in l]] where [f] may raise: the first exception aborts
    the comprehension. *)
Fixpoint result_mapM {A B : Type} (f : A -> result B) (l : list A)
  : result (list B) :=
  match l with
  | [] => Ok []
  | x :: l' => y ← f x; ys ← result_mapM f l'; Ok (y :: ys)
  end.

(** ** Command line: [get_args] *)

Inductive py_value : Type :=
| PyNone
| PyStr (s : string)
| PyInt (z : Z)
| PyBool (b : bool).

Inductive arg_type : Type := type_str | type_int.

(** The argparse actions the script relies on.  [help_action] is the one
    [argparse.ArgumentParser()] registers by itself ([add_help] is true
    by default); it stores nothing in the namespace. *)
Inductive action : Type :=
| store (ty : arg_type) (default : py_value)
| store_true
| help_action.

Record argument : Type := {
  option_strings : list string;
  dest : string;
  act : action;
}.

Definition ArgumentParser : Type := list argument.

Definition ArgumentParser_new : ArgumentParser :=
  [ {| option_strings := ["-h"; "--help"]; dest := "help"; act := help_action |} ].

(** [dest] of a long option: the option string without its two leading
    dashes (none of the script's flags contains a further dash). *)
Definition dest_of (flag : string) : string :=
  String.substring 2 (String.length flag - 2)%nat flag.

Definition add_argument (p : ArgumentParser) (flag : string) (a : action)
  : ArgumentParser :=
  p ++ [ {| option_strings := [flag]; dest := dest_of flag; act := a |} ].

Definition get_args_parser : ArgumentParser :=
  let parser := ArgumentParser_new in
  let parser := add_argument parser "--model" (store type_str (PyStr "natolambert/gpt2-dummy-rm")) in
  let parser := add_argument parser "--ref_model" (store type_str (PyStr "natolambert/gpt2-dummy-rm")) in
  let parser := add_argument parser "--tokenizer" (store type_str PyNone) in
  let parser := add_argument parser "--chat_template" (store type_str (PyStr "tulu")) in
  let parser := add_argument parser "--do_not_save" store_true in
  let parser := add_argument parser "--batch_size" (store type_int (PyInt 64)) in
  let parser := add_argument parser "--pref_sets" store_true in
  parser.



(** *** How the parser recognises a token of the command line

    [ArgumentParser._parse_optional] and [_get_option_tuples], under the
    defaults of [argparse.ArgumentParser()]: [prefix_chars='-'] and
    [allow_abbrev=True], so a long flag is also recognised by any prefix
    that fits no other flag. *)










(** The namespace [parse_args] starts from: every action's default, under
    its [dest]; [store_true] defaults to [False]. *)
Definition default_of (a : action) : option py_value :=
  match a with
  | store _ d => Some d
  | store_true => Some (PyBool false)
  | help_action => None
  end.

Definition initial_namespace (p : ArgumentParser) : list (string * py_value) :=
  omap (fun a => d ← default_of (act a); Some (dest a, d)) p.



(** The namespace as [main] reads it. *)
Record Args : Type := {
  model : string;
  ref_model : string;
  tokenizer : option string;
  chat_template : string;
  do_not_save : bool;
  batch_size : Z;
  pref_sets : bool;
}.

Definition ns_get (ns : list (string * py_value)) (k : string) : option py_value :=
  snd <$> List.find (fun kv => bool_decide (kv.1 = k)) ns.

Definition args_of_namespace (ns : list (string * py_value)) : option Args :=
  m ← ns_get ns "model";
  r ← ns_get ns "ref_model";
  t ← ns_get ns "tokenizer";
  c ← ns_get ns "chat_template";
  d ← ns_get ns "do_not_save";
  b ← ns_get ns "batch_size";
  p ← ns_get ns "pref_sets";
  match m, r, t, c, d, b, p with
  | PyStr m, PyStr r, t, PyStr c, PyBool d, PyInt b, PyBool p =>
      t' ← match t with
           | PyNone => Some None
           | PyStr s => Some (Some s)
           | _ => None
           end;
      Some {| model := m; ref_model := r; tokenizer := t'; chat_template := c;
              do_not_save := d; batch_size := b; pref_sets := p |}
  | _, _, _, _, _, _, _ => None
  end.

(** Line 91: [args.tokenizer if args.tokenizer else args.model].  The
    condition is Python truthiness: [None] and the empty string are both
    false. *)
Definition tokenizer_path (args : Args) : string :=
  match tokenizer args with
  | Some s => if bool_decide (s = "") then model args else s
  | None => model args
  end.

(** ** Python floats and integers *)

Definition prec : Z := 53.
Definition emax : Z := 1024.

(** [a > b] on floats: false when either side is a NaN. *)
Definition float_gt (a b : spec_float) : bool :=
  match SFcompare a b with
  | Some Gt => true
  | _ => false
  end.

Definition float_of_int (n : Z) : spec_float := binary_normalize prec emax n 0 false.

(** [a / b] on integers (true division): the float nearest to the
    quotient, for operands below [2^53] in magnitude. *)
Definition py_truediv (a b : Z) : result spec_float :=
  if b =? 0 then Raise ZeroDivisionError
  else Ok (SFdiv prec emax (float_of_int a) (float_of_int b)).

Definition py_sum (l : list Z) : Z := foldl Z.add 0 l.

(** ** Data *)

(** A record of the evaluation set once [load_eval_dataset] has kept the
    columns [text_chosen] and [text_rejected]. *)
Record Row : Type := {
  text_chosen : string;
  text_rejected : string;
}.

(** What [inference_step] hands back for one side of a batch: either the
    list of dicts of a classification pipeline
    ([[{'label': 'LABEL_1', 'score': 0.68}, ...]]) or a tensor of scores. *)
Record pipeline_result : Type := {
  label : string;
  score : spec_float;
}.

Inductive Rewards : Type :=
| ListOfDicts (l : list pipeline_result)
| Tensor (l : list spec_float).

Inductive torch_dtype : Type := float16.

Record model_kwargs : Type := {
  load_in_8bit : bool;
  device_map : Z;
  torch_dtype_ : option torch_dtype;
  trust_remote_code : bool;
}.

Record collator_config : Type := {
  cfg_pad_token_id : option Z;
  cfg_label_pad_token_id : Z;
  cfg_is_encoder_decoder : bool;
}.

Inductive node : Type :=
| File (content : string)
| Dir.

Record upload_request : Type := {
  path_or_fileobj : string;
  path_in_repo : string;
  repo_id : string;
  repo_type : string;
  commit_message : string;
}.

Inductive json_value : Type :=
| JString (s : string)
| JFloat (f : spec_float).

Definition EVAL_REPO : string := "ai2-adapt-dev/HERM-Results".

(** ** The libraries the script orchestrates *)

Class Libraries : Type := {
  (* accelerate *)
  Accelerator : Type;
  Accelerator_new : result Accelerator;
  process_index : Accelerator -> Z;
  (* fastchat *)
  Conversation : Type;
  get_conv_template : string -> result Conversation;
  (* transformers *)
  Tokenizer : Type;
  AutoTokenizer_from_pretrained : string -> result Tokenizer;
  pad_token_id : Tokenizer -> option Z;
  Model : Type;
  AutoModelForCausalLM_from_pretrained : string -> model_kwargs -> result Model;
  (* torch *)
  cuda_is_available : bool;
  (* trl: the rows [tokenize_row] produces, and their padded batches *)
  TokenizedRow : Type;
  Batch : Type;
  DPODataCollatorWithPadding : collator_config -> list TokenizedRow -> result Batch;
  (* json: the text of a float and of a string literal *)
  float_repr : spec_float -> string;
  encode_basestring_ascii : string -> string;
  (* huggingface_hub: the remote side, and [HfApi.upload_file], which may
     read the local files *)
  Hub : Type;
  upload_file : upload_request -> gmap string node -> Hub -> result string * Hub;
}.

(** The repository's own package, imported by the script. *)
Class Herm `{Libraries} : Type := {
  load_eval_dataset :
    bool -> Conversation -> Tokenizer -> list string -> result (list Row * list string);
  DPOInference : Type;
  DPOInference_new : Model -> Model -> Tokenizer -> Accelerator -> result DPOInference;
  tokenize_row : DPOInference -> Row -> result TokenizedRow;
  label_pad_token_id : DPOInference -> Z;
  is_encoder_decoder : DPOInference -> bool;
  inference_step : DPOInference -> Batch -> result (Rewards * Rewards);
}.

(** ** torch.utils.data.DataLoader *)

(** [shuffle=False] selects the sequential sampler. *)
Definition SequentialSampler (n : nat) : list nat := seq 0 n.

(** The batch sampler: indices are appended to [batch], which is yielded
    when it reaches [batch_size]; what is left at the end is yielded
    unless [drop_last]. [batch] is kept in reverse. *)
Fixpoint BatchSampler (batch_size : nat) (drop_last : bool)
    (batch : list nat) (sampler : list nat) : list (list nat) :=
  match sampler with
  | [] =>
      if bool_decide (0 < length batch)%nat && negb drop_last
      then [rev batch] else []
  | idx :: sampler' =>
      let batch := idx :: batch in
      if bool_decide (length batch = batch_size)
      then rev batch :: BatchSampler batch_size drop_last [] sampler'
      else BatchSampler batch_size drop_last batch sampler'
  end.

Record DataLoader (A B : Type) : Type := {
  dl_dataset : list A;
  dl_batch_sampler : list (list nat);
  dl_collate_fn : list A -> result B;
}.
Arguments dl_dataset {A B} _.
Arguments dl_batch_sampler {A B} _.
Arguments dl_collate_fn {A B} _.

Definition DataLoader_new {A B : Type} (dataset : list A) (batch_size : Z)
    (collate_fn : list A -> result B) (drop_last : bool) : result (DataLoader A B) :=
  if batch_size <=? 0 then Raise ValueError
  else Ok {| dl_dataset := dataset;
             dl_batch_sampler :=
               BatchSampler (Z.to_nat batch_size) drop_last []
                 (SequentialSampler (length dataset));
             dl_collate_fn := collate_fn |}.

Definition getitem {A : Type} (l : list A) (i : nat) : result A :=
  match l !! i with
  | Some x => Ok x
  | None => Raise IndexError
  end.

Arguments getitem : simpl never.

(** One step of the loader's iterator: fetch the rows of an index batch
    and collate them. *)
Definition fetch {A B : Type} (dl : DataLoader A B) (idxs : list nat) : result B :=
  rows ← result_mapM (getitem (dl_dataset dl)) idxs;
  dl_collate_fn dl rows.

(** ** The inference loop (lines 145-164) *)

(** Lines 153-159. [rewards_chosen[0]] raises on an empty batch result;
    the branch taken for the chosen side is applied to both sides. *)
Definition extract_scores (rewards_chosen rewards_rejected : Rewards)
  : result (list spec_float * list spec_float) :=
  match rewards_chosen with
  | ListOfDicts [] | Tensor [] => Raise IndexError
  | ListOfDicts ((_ :: _) as rc) =>
      match rewards_rejected with
      | ListOfDicts rr => Ok (map score rc, map score rr)
      | Tensor [] => Ok (map score rc, [])
      | Tensor (_ :: _) => Raise IndexError
      end
  | Tensor ((_ :: _) as rc) =>
      match rewards_rejected with
      | Tensor rr => Ok (rc, rr)
      | ListOfDicts _ => Raise AttributeError
      end
  end.

(** Lines 161-164: one [append] per zipped pair. *)
Definition record_results (results : list Z)
    (score_chosen score_rejected : list spec_float) : list Z :=
  foldl (fun results '(chosen, rejected) =>
           if float_gt chosen rejected then results ++ [1] else results ++ [0])
        results (zip score_chosen score_rejected).

(** ** Datasets and per-subset scores (lines 166-184) *)

(** [Dataset.add_column]: the new column must have one entry per row;
    otherwise the library raises [ValueError]. *)
Definition add_column {A B : Type} (dataset : list A) (column : list B)
  : result (list (A * B)) :=
  if bool_decide (length column = length dataset)
  then Ok (zip dataset column)
  else Raise ValueError.

Definition nul : ascii := ascii_of_nat 0.

Fixpoint all_nul (s : string) : bool :=
  match s with
  | EmptyString => true
  | String c s' => bool_decide (c = nul) && all_nul s'
  end.

(** What numpy hands back for a string stored in one of its fixed-width
    arrays: the string without its trailing NUL characters. *)
Fixpoint rstrip_nul (s : string) : string :=
  match s with
  | EmptyString => EmptyString
  | String c s' => if all_nul s then EmptyString else String c (rstrip_nul s')
  end.

(** [np.unique] on labels: the labels go through a fixed-width string
    array, which drops their trailing NUL characters; what comes back are
    the distinct stored labels, sorted. *)
Definition np_unique (labels : list string) : list string :=
  merge_sort String.le (remove_dups (rstrip_nul <$> labels)).

(** Rows of [out_dataset]: the record, its [results] entry, its [subset]. *)
Definition OutRow : Type := (Row * Z) * string.

Definition subset_of (example : OutRow) : string := example.2.
Definition results_of (example : OutRow) : Z := example.1.2.

(** [out_dataset.filter(lambda example: example["subset"] == subset)] *)
Definition filter_subset (out_dataset : list OutRow) (subset : string) : list OutRow :=
  filter (fun example => subset_of example = subset) out_dataset.

Definition num_correct (out_dataset : list OutRow) (subset : string) : Z :=
  py_sum (map results_of (filter_subset out_dataset subset)).

Definition num_total (out_dataset : list OutRow) (subset : string) : Z :=
  Z.of_nat (length (map results_of (filter_subset out_dataset subset))).

(** The loop of lines 179-184. *)
Fixpoint group_subsets (out_dataset : list OutRow) (present_subsets : list string)
    (results_grouped : gmap string json_value) : result (gmap string json_value) :=
  match present_subsets with
  | [] => Ok results_grouped
  | subset :: rest =>
      accuracy ← py_truediv (num_correct out_dataset subset) (num_total out_dataset subset);
      group_subsets out_dataset rest (<[subset := JFloat accuracy]> results_grouped)
  end.

(** Lines 174-184. *)
Definition group_results (args : Args) (out_dataset : list OutRow)
    (subsets : list string) : result (gmap string json_value) :=
  let results_grouped : gmap string json_value := ∅ in
  let results_grouped := <["model" := JString (model args)]> results_grouped in
  let results_grouped := <["chat_template" := JString (chat_template args)]> results_grouped in
  let present_subsets := np_unique subsets in
  group_subsets out_dataset present_subsets results_grouped.

(** ** os.path and the local file system *)

Definition slash : ascii := "/"%char.
Definition newline : string := String (ascii_of_nat 10) EmptyString.

Fixpoint has_slash (s : string) : bool :=
  match s with
  | EmptyString => false
  | String c s' => bool_decide (c = slash) || has_slash s'
  end.

(** [p[:p.rfind('/') + 1]] *)
Fixpoint upto_last_slash (p : string) : string :=
  match p with
  | EmptyString => EmptyString
  | String c p' => if has_slash p then String c (upto_last_slash p') else EmptyString
  end.

Fixpoint all_slashes (s : string) : bool :=
  match s with
  | EmptyString => true
  | String c s' => bool_decide (c = slash) && all_slashes s'
  end.

(** [s.rstrip('/')] *)
Fixpoint rstrip_slash (s : string) : string :=
  match s with
  | EmptyString => EmptyString
  | String c s' => if all_slashes s then EmptyString else String c (rstrip_slash s')
  end.

(** [posixpath.dirname] *)
Definition os_path_dirname (p : string) : string :=
  let head := upto_last_slash p in
  if negb (bool_decide (head = "")) && negb (all_slashes head)
  then rstrip_slash head else head.

Definition os_path_isfile (fs : gmap string node) (path : string) : bool :=
  match fs !! path with
  | Some (File _) => true
  | _ => false
  end.

Definition os_path_isdir (fs : gmap string node) (path : string) : bool :=
  match fs !! path with
  | Some Dir => true
  | _ => false
  end.

(** [os.makedirs(name, exist_ok=...)] for a [name] of one component, the
    only kind the script passes: an existing directory is accepted when
    [exist_ok], an existing file never is. *)
Definition os_makedirs (name : string) (exist_ok : bool) (fs : gmap string node)
  : result (gmap string node) :=
  match fs !! name with
  | None => Ok (<[name := Dir]> fs)
  | Some Dir => if exist_ok then Ok fs else Raise FileExistsError
  | Some (File _) => Raise FileExistsError
  end.

Definition os_remove (path : string) (fs : gmap string node)
  : result (gmap string node) :=
  match fs !! path with
  | Some (File _) => Ok (delete path fs)
  | Some Dir => Raise IsADirectoryError
  | None => Raise FileNotFoundError
  end.

(** [open(path, "w")]: the directory of [path] must exist; the file is
    created or truncated. *)
Definition open_w (path : string) (fs : gmap string node)
  : result (gmap string node) :=
  let parent := os_path_dirname path in
  if negb (bool_decide (parent = "")) && negb (os_path_isdir fs parent)
  then Raise FileNotFoundError
  else match fs !! path with
       | Some Dir => Raise IsADirectoryError
       | _ => Ok (<[path := File ""]> fs)
       end.

(** [f.write(data)] on the open file. *)
Definition file_write (path : string) (data : string) (fs : gmap string node)
  : gmap string node :=
  match fs !! path with
  | Some (File old) => <[path := File (old +:+ data)]> fs
  | _ => fs
  end.

Section Script.
Context `{herm : Herm}.

(** ** json.dumps(results_grouped, indent=4, sort_keys=True, default=str) *)

Definition key_le (x y : string * json_value) : Prop := String.le x.1 y.1.

#[local] Instance key_le_dec : RelDecision key_le.
Proof. intros x y. unfold key_le. apply _. Defined.

Definition json_encode_value (v : json_value) : string :=
  match v with
  | JString s => encode_basestring_ascii s
  | JFloat f => float_repr f
  end.

Fixpoint spaces (n : nat) : string :=
  match n with
  | O => ""
  | S n' => " " +:+ spaces n'
  end.

Definition json_encode_item (indent : nat) (item : string * json_value) : string :=
  spaces indent +:+ encode_basestring_ascii item.1 +:+ ": " +:+ json_encode_value item.2.

(** Items are emitted in the order of their keys ([sort_keys=True]), one
    per line. All values of [results_grouped] are strings or floats, so
    [default] is never called. *)
Definition json_dumps (indent : nat) (d : gmap string json_value) : string :=
  match merge_sort key_le (map_to_list d) with
  | [] => "{}"
  | items =>
      "{" +:+ newline
      +:+ String.concat ("," +:+ newline) (map (json_encode_item indent) items)
      +:+ newline +:+ "}"
  end.

(** ** The inference loop (lines 145-164) *)

Fixpoint inference_loop (dpo : DPOInference) (dataloader : DataLoader TokenizedRow Batch)
    (batches : list (list nat)) (results : list Z) : result (list Z) :=
  match batches with
  | [] => Ok results
  | idxs :: rest =>
      batch ← fetch dataloader idxs;
      '(rewards_chosen, rewards_rejected) ← inference_step dpo batch;
      '(score_chosen, score_rejected) ← extract_scores rewards_chosen rewards_rejected;
      inference_loop dpo dataloader rest
        (record_results results score_chosen score_rejected)
  end.

(** ** [main], up to the grouped results (lines 61-184) *)

Record Setup : Type := {
  setup_tokenizer : Tokenizer;
  setup_dataset : list Row;
  setup_subsets : list string;
  setup_dpo : DPOInference;
}.

(** Lines 66-126. *)
Definition setup (args : Args) : result Setup :=
  accelerator ← Accelerator_new;
  let current_device := process_index accelerator in
  conv ← get_conv_template (chat_template args);
  tokenizer ← AutoTokenizer_from_pretrained (tokenizer_path args);
  '(dataset, subsets) ←
    load_eval_dataset (negb (pref_sets args)) conv tokenizer
      ["text_chosen"; "text_rejected"];
  let kwargs :=
    {| load_in_8bit := true;
       device_map := current_device;
       torch_dtype_ := if cuda_is_available then Some float16 else None;
       trust_remote_code := true |} in
  policy ← AutoModelForCausalLM_from_pretrained (model args) kwargs;
  reference ← AutoModelForCausalLM_from_pretrained (ref_model args) kwargs;
  dpo ← DPOInference_new policy reference tokenizer accelerator;
  Ok {| setup_tokenizer := tokenizer; setup_dataset := dataset;
        setup_subsets := subsets; setup_dpo := dpo |}.

(** Lines 128-164. *)
Definition run_inference (args : Args) (s : Setup) : result (list Z) :=
  let dpo := setup_dpo s in
  let BATCH_SIZE := batch_size args in
  tokenized_dataset ← result_mapM (tokenize_row dpo) (setup_dataset s);
  dataloader ←
    DataLoader_new tokenized_dataset BATCH_SIZE
      (DPODataCollatorWithPadding
         {| cfg_pad_token_id := pad_token_id (setup_tokenizer s);
            cfg_label_pad_token_id := label_pad_token_id dpo;
            cfg_is_encoder_decoder := is_encoder_decoder dpo |})
      false;
  inference_loop dpo dataloader (dl_batch_sampler dataloader) [].

(** Lines 170-184. *)
Definition process_results (args : Args) (s : Setup) (results : list Z)
  : result (gmap string json_value) :=
  out_dataset ← add_column (setup_dataset s) results;
  out_dataset ← add_column out_dataset (setup_subsets s);
  group_results args out_dataset (setup_subsets s).

Definition evaluate (args : Args) : result (gmap string json_value) :=
  s ← setup args;
  results ← run_inference args s;
  process_results args s results.

(** ** The world [main] acts on, and its tail (lines 190-215) *)

Record World : Type := {
  fs : gmap string node;
  hub : Hub;
}.

Inductive outcome (A : Type) : Type :=
| Done (a : A) (w : World)
| Failed (e : exn) (w : World).
Arguments Done {A} a w.
Arguments Failed {A} e w.

Definition Run (A : Type) : Type := World -> outcome A.

#[global] Instance Run_ret : MRet Run := fun A a w => Done a w.
#[global] Instance Run_bind : MBind Run := fun A B f m w =>
  match m w with
  | Done a w' => f a w'
  | Failed e w' => Failed e w'
  end.

Definition lift_result {A : Type} (r : result A) : Run A := fun w =>
  match r with
  | Ok a => Done a w
  | Raise e => Failed e w
  end.

Definition get_fs : Run (gmap string node) := fun w => Done (fs w) w.

Definition fs_update (f : gmap string node -> result (gmap string node)) : Run unit :=
  fun w =>
    match f (fs w) with
    | Ok fs' => Done tt {| fs := fs'; hub := hub w |}
    | Raise e => Failed e w
    end.

Definition api_upload_file (req : upload_request) : Run string := fun w =>
  let '(r, hub') := upload_file req (fs w) (hub w) in
  let w' := {| fs := fs w; hub := hub' |} in
  match r with
  | Ok url => Done url w'
  | Raise e => Failed e w'
  end.

(** Lines 192-203. *)
Definition save_results (path dumped : string) : Run unit :=
  let dirname := os_path_dirname path in
  (if negb (bool_decide (dirname = ""))
   then fs_update (os_makedirs dirname true) else mret tt);;
  files ← get_fs;
  (if os_path_isfile files path
   then fs_update (os_remove path) else mret tt);;
  fs_update (open_w path);;
  fs_update (fun files => Ok (file_write path dumped files)).

(** Lines 206-215. *)
Definition upload_results (args : Args) (path : string) : Run unit :=
  if negb (do_not_save args) then
    let sub_path := if negb (pref_sets args) then "eval-set/" else "pref-sets/" in
    scores_url ← api_upload_file
      {| path_or_fileobj := path;
         path_in_repo := sub_path +:+ model args +:+ ".json";
         repo_id := EVAL_REPO;
         repo_type := "dataset";
         commit_message := "Add reward model scores for  model " +:+ model args |};
    mret tt
  else mret tt.

Definition main (args : Args) : Run unit :=
  results_grouped ← lift_result (evaluate args);
  let dumped := json_dumps 4 results_grouped in
  let path := "results/metrics.json" in
  save_results path dumped;;
  upload_results args path.

End Script.

Arguments Done {_ _} a w.
Arguments Failed {_ _} e w.

(** ** Auxiliary definitions used in the statements *)


(** The entry recorded for one (chosen, rejected) pair of scores. *)
Definition pair_result (p : spec_float * spec_float) : Z :=
  if float_gt p.1 p.2 then 1 else 0.

(** Rewards for a batch of [n] records: both sides of the same kind, one
    reward per record on each side. *)
Definition well_formed_rewards (n : nat) (rewards_chosen rewards_rejected : Rewards) : Prop :=
  match rewards_chosen, rewards_rejected with
  | ListOfDicts rc, ListOfDicts rr => length rc = n /\ length rr = n
  | Tensor rc, Tensor rr => length rc = n /\ length rr = n
  | _, _ => False
  end.

(** The collator [run_inference] builds (lines 135-139). *)
Definition collator_of `{Herm} (s : Setup) : collator_config :=
  {| cfg_pad_token_id := pad_token_id (setup_tokenizer s);
     cfg_label_pad_token_id := label_pad_token_id (setup_dpo s);
     cfg_is_encoder_decoder := is_encoder_decoder (setup_dpo s) |}.

(** One iteration of the loop, started from an empty [results], on the
    rows of one batch. *)
Definition batch_results `{Herm} (s : Setup) (rows : list TokenizedRow) : result (list Z) :=
  batch ← DPODataCollatorWithPadding (collator_of s) rows;
  '(rewards_chosen, rewards_rejected) ← inference_step (setup_dpo s) batch;
  '(score_chosen, score_rejected) ← extract_scores rewards_chosen rewards_rejected;
  Ok (record_results [] score_chosen score_rejected).

(** The quotient stored for a subset. *)
Definition accuracy (out_dataset : list OutRow) (subset : string) : spec_float :=
  SFdiv prec emax (float_of_int (num_correct out_dataset subset))
                  (float_of_int (num_total out_dataset subset)).

(** The pairs of a subset whose recorded result is 1. *)
Definition count_preferred (out_dataset : list OutRow) (subset : string) : nat :=
  length (filter (fun example => results_of example = 1) (filter_subset out_dataset subset)).

Definition is_bit (r : Z) : Prop := r = 0 \/ r = 1.

(** The path [main] writes to (line 192), and its directory. *)
Definition metrics_path : string := "results/metrics.json".
Definition metrics_dir : string := "results".

(** What the local write needs of the file system it starts from: no
    plain file in the place of the directory, no directory in the place
    of the file. *)
Definition can_save (files : gmap string node) : Prop :=
  os_path_isfile files metrics_dir = false /\ os_path_isdir files metrics_path = false.

(** The file system once [dumped] is stored. *)
Definition saved (dumped : string) (files : gmap string node) : gmap string node :=
  <[metrics_path := File dumped]> (<[metrics_dir := Dir]> files).

(** The request [main] sends to the hub (lines 207-214). *)
Definition upload_request_of (args : Args) : upload_request :=
  {| path_or_fileobj := metrics_path;
     path_in_repo :=
       (if pref_sets args then "pref-sets/" else "eval-set/") +:+ model args +:+ ".json";
     repo_id := "ai2-adapt-dev/HERM-Results";
     repo_type := "dataset";
     commit_message := "Add reward model scores for  model " +:+ model args |}.

(** The world a run ends in, whether it returned or raised. *)
Definition final_world `{Libraries} {A : Type} (o : outcome A) : World :=
  match o with
  | Done _ w => w
  | Failed _ w => w
  end.

(** The world once the local file is written and nothing else changed. *)
Definition written `{Libraries} (dumped : string) (w : World) : World :=
  {| fs := saved dumped (fs w); hub := hub w |}.

(** The outcome of the upload of lines 208-214, started in [w]. *)
Definition uploaded `{Libraries} (args : Args) (w : World) : outcome unit :=
  match upload_file (upload_request_of args) (fs w) (hub w) with
  | (Ok _, remote) => Done tt {| fs := fs w; hub := remote |}
  | (Raise e, remote) => Failed e {| fs := fs w; hub := remote |}
  end.

(** [out_dataset] as lines 170-172 build it. *)
Definition out_dataset_of (dataset : list Row) (results : list Z) (subsets : list string)
  : list OutRow :=
  zip (zip dataset results) subsets.

(** [results_grouped] before the loop over the subsets (lines 174-176). *)
Definition metadata (args : Args) : gmap string json_value :=
  <["chat_template" := JString (chat_template args)]>
    (<["model" := JString (model args)]> ∅).

(** ** The inference step of [herm.DPOInference], from the specification

    [herm] is not part of the script.  What its inference step computes is
    taken from the specification: the implicit reward of a completion
    compares the policy model's sequence log-probability with the
    reference model's, as their log-ratio. *)

Section DPOModel.
Context `{Libraries}.

(** The forward pass of a causal language model on a batch: the sequence
    log-probabilities of its chosen and of its rejected completions. *)
Variable sequence_logps : Model -> Batch -> list spec_float * list spec_float.

(** The float format of the tensors. *)
Variables tensor_prec tensor_emax : Z.

(** The parts of [herm] the specification leaves open. *)
Variable load_eval_dataset_spec :
  bool -> Conversation -> Tokenizer -> list string -> result (list Row * list string).
Variable tokenize_row_spec : Tokenizer -> Row -> result TokenizedRow.
Variable label_pad_token_id_spec : Z.
Variable is_encoder_decoder_spec : bool.

Record DPOInference_spec : Type := {
  dpo_model : Model;
  dpo_ref_model : Model;
  dpo_tokenizer : Tokenizer;
  dpo_accelerator : Accelerator;
}.

(** Modelled from the spec: the DPO implicit reward of [herm.DPOInference],
    which is missing from the sources; the log-probability ratio between
    the policy and the reference model, a difference of log-probabilities. *)
Definition implicit_reward (policy_logp reference_logp : spec_float) : spec_float :=
  SFsub tensor_prec tensor_emax policy_logp reference_logp.

(** Modelled from the spec: [herm.DPOInference.inference_step], which is
    missing from the sources; the implicit rewards of the chosen and of
    the rejected completions of a batch. *)
Definition inference_step_spec (dpo : DPOInference_spec) (batch : Batch)
  : result (Rewards * Rewards) :=
  let '(policy_chosen_logps, policy_rejected_logps) := sequence_logps (dpo_model dpo) batch in
  let '(ref_chosen_logps, ref_rejected_logps) := sequence_logps (dpo_ref_model dpo) batch in
  Ok (Tensor (zip_with implicit_reward policy_chosen_logps ref_chosen_logps),
      Tensor (zip_with implicit_reward policy_rejected_logps ref_rejected_logps)).

Definition Herm_spec : Herm :=
  Build_Herm _
    load_eval_dataset_spec
    DPOInference_spec
    (fun model ref_model tokenizer accelerator =>
       Ok {| dpo_model := model; dpo_ref_model := ref_model;
             dpo_tokenizer := tokenizer; dpo_accelerator := accelerator |})
    (fun dpo => tokenize_row_spec (dpo_tokenizer dpo))
    (fun _ => label_pad_token_id_spec)
    (fun _ => is_encoder_decoder_spec)
    inference_step_spec.

End DPOModel.

(** ** A small instance of the libraries, to run the script on

    Models and tokenizers are their paths, tokenization and collation are
    the identity, a completion is rewarded by its length, and the hub is
    the list of the requests it has received. *)

Definition quote : string := String (ascii_of_nat 34) EmptyString.

Definition demo_float_repr (f : spec_float) : string :=
  match SFcompare f (float_of_int 0), SFcompare f (float_of_int 1) with
  | Some Eq, _ => "0.0"
  | _, Some Eq => "1.0"
  | Some Gt, Some Lt => "0.5"
  | _, _ => "nan"
  end.

Definition demo_libraries : Libraries := {|
  Accelerator := unit;
  Accelerator_new := Ok tt;
  process_index := fun _ => 0;
  Conversation := string;
  get_conv_template := fun name => Ok name;
  Tokenizer := string;
  AutoTokenizer_from_pretrained := fun path => Ok path;
  pad_token_id := fun _ => Some 0;
  Model := string;
  AutoModelForCausalLM_from_pretrained := fun path _ => Ok path;
  cuda_is_available := false;
  TokenizedRow := Row;
  Batch := list Row;
  DPODataCollatorWithPadding := fun _ rows => Ok rows;
  float_repr := demo_float_repr;
  encode_basestring_ascii := fun s => quote +:+ s +:+ quote;
  Hub := list upload_request;
  upload_file := fun req _ remote =>
    (Ok ("https://huggingface.co/datasets/" +:+ repo_id req), remote ++ [req]);
|}.

Definition demo_dataset : list Row :=
  [ {| text_chosen := "Paris is the capital of France."; text_rejected := "Lyon." |};
    {| text_chosen := "4"; text_rejected := "2 + 2 equals 5, of course" |};
    {| text_chosen := "Yes."; text_rejected := "No." |} ].

Definition demo_subsets : list string :=
  ["alpacaeval-easy"; "alpacaeval-easy"; "mt-bench-hard"].

Definition demo_reward (text : string) : spec_float :=
  float_of_int (Z.of_nat (String.length text)).

Definition demo_herm_on (dataset : list Row) (subsets : list string)
  : @Herm demo_libraries :=
  @Build_Herm demo_libraries
    (* load_eval_dataset *) (fun _ _ _ _ => Ok (dataset, subsets))
    (* DPOInference *) (string * string)%type
    (* DPOInference_new *) (fun policy reference _ _ => Ok (policy, reference))
    (* tokenize_row *) (fun _ row => Ok row)
    (* label_pad_token_id *) (fun _ => -100)
    (* is_encoder_decoder *) (fun _ => false)
    (* inference_step *)
    (fun _ (batch : list Row) =>
       Ok (Tensor (demo_reward ∘ text_chosen <$> batch),
           Tensor (demo_reward ∘ text_rejected <$> batch))).

Definition demo_herm : @Herm demo_libraries := demo_herm_on demo_dataset demo_subsets.

(** An evaluation set whose only subset is labelled ["model"]. *)
Definition model_labelled_herm : @Herm demo_libraries :=
  demo_herm_on [ {| text_chosen := "Yes."; text_rejected := "No." |} ] ["model"].

Definition demo_args : Args :=
  {| model := "natolambert/gpt2-dummy-rm"; ref_model := "natolambert/gpt2-dummy-rm";
     tokenizer := None; chat_template := "tulu";
     do_not_save := false; batch_size := 2; pref_sets := false |}.

Definition demo_setup : @Setup demo_libraries demo_herm :=
  {| setup_tokenizer := "natolambert/gpt2-dummy-rm" : @Tokenizer demo_libraries;
     setup_dataset := demo_dataset;
     setup_subsets := demo_subsets;
     setup_dpo := ("natolambert/gpt2-dummy-rm", "natolambert/gpt2-dummy-rm")
                  : @DPOInference demo_libraries demo_herm |}.

Definition demo_results : list Z := [1; 0; 1].

Definition demo_results_grouped : gmap string json_value :=
  match @evaluate demo_libraries demo_herm demo_args with
  | Ok results_grouped => results_grouped
  | Raise _ => ∅
  end.

Definition demo_world : @World demo_libraries :=
  {| fs := {[ metrics_path := File "{}" ]} : gmap string node;
     hub := [] : @Hub demo_libraries |}.

(** The keyword arguments both models are loaded with (lines 105-110). *)
Definition kwargs_of `{Libraries} (accelerator : Accelerator) : model_kwargs :=
  {| load_in_8bit := true;
     device_map := process_index accelerator;
     torch_dtype_ := if cuda_is_available then Some float16 else None;
     trust_remote_code := true |}.

(** The specification's inference step on the small instance: the
    log-probability of a text falls with its length and with the length
    of the model's path. *)
Definition demo_logp (model_path text : string) : spec_float :=
  float_of_int (- Z.of_nat (String.length model_path) * Z.of_nat (String.length text)).

Definition demo_sequence_logps (model_path : string) (batch : list Row)
  : list spec_float * list spec_float :=
  (demo_logp model_path ∘ text_chosen <$> batch,
   demo_logp model_path ∘ text_rejected <$> batch).

Definition demo_herm_spec : @Herm demo_libraries :=
  @Herm_spec demo_libraries demo_sequence_logps 24 128
    (fun _ _ _ _ => Ok (demo_dataset, demo_subsets))
    (fun _ row => Ok row) (-100) false.

Definition demo_args_spec : Args :=
  {| model := "natolambert/gpt2-dummy-rm"; ref_model := "gpt2";
     tokenizer := None; chat_template := "tulu";
     do_not_save := true; batch_size := 2; pref_sets := false |}.

Definition demo_setup_spec : @Setup demo_libraries demo_herm_spec :=
  {| setup_tokenizer := "natolambert/gpt2-dummy-rm" : @Tokenizer demo_libraries;
     setup_dataset := demo_dataset;
     setup_subsets := demo_subsets;
     setup_dpo :=
       ({| dpo_model := "natolambert/gpt2-dummy-rm" : @Model demo_libraries;
           dpo_ref_model := "gpt2" : @Model demo_libraries;
           dpo_tokenizer := "natolambert/gpt2-dummy-rm" : @Tokenizer demo_libraries;
           dpo_accelerator := tt : @Accelerator demo_libraries |}
        : @DPOInference demo_libraries demo_herm_spec) |}.

(** A world in which a plain file sits where the directory should be. *)
Definition blocked_world : @World demo_libraries :=
  {| fs := {[ metrics_dir := File "" ]} : gmap string node;
     hub := [] : @Hub demo_libraries |}.

(** The loader of the small instance, with its two batches. *)
Definition demo_dataloader : DataLoader Row (list Row) :=
  {| dl_dataset := demo_dataset;
     dl_batch_sampler := [[0; 1]; [2]]%nat;
     dl_collate_fn := fun rows => Ok rows |}.

Definition demo_out_dataset : list OutRow :=
  out_dataset_of demo_dataset demo_results demo_subsets.

(** The small instance on an empty evaluation set. *)
Definition empty_herm : @Herm demo_libraries := demo_herm_on [] [].

Definition empty_setup : @Setup demo_libraries empty_herm :=
  {| setup_tokenizer := "natolambert/gpt2-dummy-rm" : @Tokenizer demo_libraries;
     setup_dataset := [];
     setup_subsets := [];
     setup_dpo := ("natolambert/gpt2-dummy-rm", "natolambert/gpt2-dummy-rm")
                  : @DPOInference demo_libraries empty_herm |}.

Definition demo_args_zero_batch : Args :=
  {| model := "natolambert/gpt2-dummy-rm"; ref_model := "natolambert/gpt2-dummy-rm";
     tokenizer := None; chat_template := "tulu";
     do_not_save := false; batch_size := 0; pref_sets := false |}.

(** Labels that numpy's string arrays store as they are. *)
Definition no_trailing_nul (labels : list string) : Prop :=
  Forall (fun label => rstrip_nul label = label) labels.

(** An evaluation set whose only subset label ends in a NUL character. *)
Definition nul_labelled_herm : @Herm demo_libraries :=
  demo_herm_on [ {| text_chosen := "Yes."; text_rejected := "No." |} ]
    [String "a" (String nul EmptyString)].

(** * Properties *)

(** ** The command line *)

Example get_args_defaults :
  args_of_namespace (initial_namespace get_args_parser) =
  Some {| model := "natolambert/gpt2-dummy-rm";
          ref_model := "natolambert/gpt2-dummy-rm";
          tokenizer := None; chat_template := "tulu";
          do_not_save := false; batch_size := 64; pref_sets := false |}.
Proof. reflexivity. Qed.






(** C8: without [--tokenizer] the tokenizer is loaded from the [--model]
    path, and a path other than the model's reaches the loader only when
    [--tokenizer] was given that path. *)
Theorem tokenizer_path_default (args : Args) :
  (tokenizer args = None -> tokenizer_path args = model args) /\
  (tokenizer_path args <> model args -> tokenizer args = Some (tokenizer_path args)).
Proof.
  unfold tokenizer_path. split.
  - intros ->. reflexivity.
  - destruct (tokenizer args) as [s|]; [| done].
    case_bool_decide; [done |]. reflexivity.
Qed.

(** ** Pairwise comparison (lines 161-164) *)

Lemma record_results_app (results : list Z) (sc sr : list spec_float) :
  record_results results sc sr = results ++ (pair_result <$> zip sc sr).
Proof.
  unfold record_results.
  generalize (zip sc sr) as pairs. intros pairs. revert results.
  induction pairs as [| [c r] pairs IH]; intros results.
  - simpl. by rewrite app_nil_r.
  - rewrite fmap_cons. cbn [foldl]. unfold pair_result at 1. cbn [fst snd].
    destruct (float_gt c r); rewrite IH, <- app_assoc; reflexivity.
Qed.

Lemma record_results_length (results : list Z) (sc sr : list spec_float) :
  length (record_results results sc sr) =
  (length results + Nat.min (length sc) (length sr))%nat.
Proof.
  rewrite record_results_app, length_app, length_fmap.
  by rewrite length_zip.
Qed.

Lemma py_sum_from (l : list Z) (a : Z) : foldl Z.add a l = a + py_sum l.
Proof.
  unfold py_sum. revert a. induction l as [| x l IH]; intros a; cbn [foldl].
  - lia.
  - rewrite (IH (a + x)), (IH (0 + x)). lia.
Qed.

Lemma py_sum_cons (x : Z) (l : list Z) : py_sum (x :: l) = x + py_sum l.
Proof. unfold py_sum at 1. simpl. apply py_sum_from. Qed.

Lemma py_sum_pair_results (pairs : list (spec_float * spec_float)) :
  py_sum (pair_result <$> pairs) =
  Z.of_nat (length (filter (fun p => float_gt p.1 p.2 = true) pairs)).
Proof.
  induction pairs as [| p pairs IH]; [reflexivity |].
  rewrite fmap_cons, py_sum_cons, IH, filter_cons.
  unfold pair_result. destruct (float_gt p.1 p.2); case_decide; try done.
  simpl. lia.
Qed.

(** C1: the entry recorded for a (chosen, rejected) pair is 1 when the
    chosen score is strictly greater than the rejected one and 0 in every
    other case, a tie in particular; the entries of a batch sum to the
    number of its pairs in which the chosen completion is preferred. *)
Theorem pair_result_recorded (results : list Z) (score_chosen score_rejected : list spec_float)
    (i : nat) (chosen rejected : spec_float) :
  score_chosen !! i = Some chosen ->
  score_rejected !! i = Some rejected ->
  let entry := record_results results score_chosen score_rejected !! (length results + i)%nat in
  (SFcompare chosen rejected = Some Gt -> entry = Some 1) /\
  (SFcompare chosen rejected <> Some Gt -> entry = Some 0) /\
  (SFcompare chosen rejected = Some Eq -> entry = Some 0) /\
  py_sum (record_results [] score_chosen score_rejected) =
    Z.of_nat (length (filter (fun p => float_gt p.1 p.2 = true)
                        (zip score_chosen score_rejected))).
Proof.
  intros Hc Hr entry.
  assert (Hentry : entry = Some (pair_result (chosen, rejected))).
  { subst entry. rewrite record_results_app, lookup_app_r by lia.
    replace (length results + i - length results)%nat with i by lia.
    rewrite list_lookup_fmap, list.lookup_zip_with, Hc. simpl.
    by rewrite Hr. }
  rewrite Hentry. unfold pair_result, float_gt. simpl.
  repeat split.
  - by intros ->.
  - intros Hne. destruct (SFcompare chosen rejected) as [[]|]; done.
  - by intros ->.
  - rewrite record_results_app. simpl. apply py_sum_pair_results.
Qed.

(** A NaN on either side is recorded as 0. *)
Lemma nan_is_not_preferred (x : spec_float) :
  pair_result (S754_nan, x) = 0 /\ pair_result (x, S754_nan) = 0.
Proof. unfold pair_result, float_gt. by destruct x. Qed.

(** ** Batching (lines 132-143) *)

Lemma BatchSampler_concat (batch_size : nat) (batch sampler : list nat) :
  concat (BatchSampler batch_size false batch sampler) = rev batch ++ sampler.
Proof.
  revert batch. induction sampler as [| idx sampler IH]; intros batch; cbn [BatchSampler].
  - rewrite andb_true_r, app_nil_r. case_bool_decide as Hlen; simpl.
    + by rewrite app_nil_r.
    + destruct batch; [done | simpl in Hlen; lia].
  - case_bool_decide; simpl; rewrite IH; simpl; by rewrite <- app_assoc.
Qed.

Lemma BatchSampler_nonempty (batch_size : nat) (drop_last : bool) (batch sampler : list nat) :
  Forall (fun b => b <> []) (BatchSampler batch_size drop_last batch sampler).
Proof.
  revert batch. induction sampler as [| idx sampler IH]; intros batch; cbn [BatchSampler].
  - case_bool_decide as Hlen; simpl; [| constructor].
    destruct drop_last; simpl; constructor; [| constructor].
    intros Hrev. apply (f_equal length) in Hrev. rewrite length_rev in Hrev.
    simpl in Hrev. lia.
  - case_bool_decide; [constructor |]; auto.
    intros Hrev. apply (f_equal length) in Hrev. rewrite length_rev in Hrev.
    simpl in Hrev. lia.
Qed.

(** No batch is larger than [batch_size]. *)
Lemma BatchSampler_bounded (batch_size : nat) (drop_last : bool) (batch sampler : list nat) :
  (length batch < batch_size)%nat ->
  Forall (fun b => (length b <= batch_size)%nat)
         (BatchSampler batch_size drop_last batch sampler).
Proof.
  revert batch. induction sampler as [| idx sampler IH]; intros batch Hlt; cbn [BatchSampler].
  - destruct (bool_decide _ && negb drop_last); constructor; [| constructor].
    rewrite length_rev. lia.
  - case_bool_decide as Hfull.
    + constructor; [rewrite length_rev; lia |]. apply IH. simpl. lia.
    + apply IH. simpl in *. lia.
Qed.

Section Mapping.
Context {A B : Type} (f : A -> result B).

Lemma result_mapM_app (l1 l2 : list A) :
  result_mapM f (l1 ++ l2) =
  (ys1 ← result_mapM f l1; ys2 ← result_mapM f l2; Ok (ys1 ++ ys2)).
Proof.
  induction l1 as [| x l1 IH]; simpl.
  - by destruct (result_mapM f l2).
  - destruct (f x) as [y|e]; simpl; [| done]. rewrite IH.
    destruct (result_mapM f l1) as [ys1|e]; simpl; [| done].
    by destruct (result_mapM f l2).
Qed.

Lemma result_mapM_Forall2 (l : list A) (ys : list B) :
  result_mapM f l = Ok ys <-> Forall2 (fun x y => f x = Ok y) l ys.
Proof.
  revert ys. induction l as [| x l IH]; intros ys; simpl.
  - split; [intros [= <-]; constructor | by inversion 1].
  - destruct (f x) as [y|e] eqn:Hfx; simpl.
    + destruct (result_mapM f l) as [ys'|e] eqn:Hl; simpl.
      * split.
        -- intros [= <-]. constructor; [done | by apply IH].
        -- inversion 1 as [| ? y' ? ys'' Hy Hrest]; subst.
           apply IH in Hrest. congruence.
      * split; [done |]. inversion 1 as [| ? y' ? ys'' Hy Hrest]; subst.
        apply IH in Hrest. congruence.
    + split; [done |]. inversion 1; congruence.
Qed.

Lemma result_mapM_total (l : list A) :
  (forall x, x ∈ l -> exists y, f x = Ok y) -> exists ys, result_mapM f l = Ok ys.
Proof.
  induction l as [| x l IH]; intros Hall; simpl; [by eexists |].
  destruct (Hall x) as [y ->]; [by left |].
  destruct IH as [ys ->]; [intros z Hz; apply Hall; by right |].
  by eexists.
Qed.

Lemma result_mapM_length (l : list A) (ys : list B) :
  result_mapM f l = Ok ys -> length ys = length l.
Proof. intros Hm%result_mapM_Forall2. symmetry. by eapply Forall2_length. Qed.

End Mapping.

Lemma getitem_seq {A : Type} (pre l : list A) :
  result_mapM (getitem (pre ++ l)) (seq (length pre) (length l)) = Ok l.
Proof.
  revert pre. induction l as [| x l IH]; intros pre; [done |].
  cbn [length seq result_mapM].
  assert (getitem (pre ++ x :: l) (length pre) = Ok x) as ->.
  { unfold getitem. by rewrite list_lookup_middle. }
  specialize (IH (pre ++ [x])).
  rewrite length_app, <- app_assoc, Nat.add_1_r in IH. cbn [app length] in IH.
  simpl. by rewrite IH.
Qed.

(** Fetching the index batches one after the other yields the dataset cut
    into consecutive chunks. *)
Lemma fetch_chunks {A : Type} (dataset rows : list A) (batches : list (list nat)) :
  result_mapM (getitem dataset) (concat batches) = Ok rows ->
  exists chunks,
    Forall2 (fun idxs chunk => result_mapM (getitem dataset) idxs = Ok chunk) batches chunks /\
    concat chunks = rows.
Proof.
  revert rows. induction batches as [| idxs batches IH]; intros rows; simpl.
  - intros [= <-]. exists []. split; [constructor | done].
  - rewrite result_mapM_app.
    destruct (result_mapM (getitem dataset) idxs) as [chunk|e] eqn:Hchunk; simpl; [| done].
    destruct (result_mapM (getitem dataset) (concat batches)) as [rest|e]; simpl; [| done].
    intros [= <-]. destruct (IH rest eq_refl) as (chunks & Hchunks & <-).
    exists (chunk :: chunks). split; [by constructor | done].
Qed.

(** ** The inference loop covers the dataset in order (lines 128-164) *)

Lemma pair_result_bit (p : spec_float * spec_float) : is_bit (pair_result p).
Proof. unfold is_bit, pair_result. destruct (float_gt p.1 p.2); auto. Qed.

Lemma extract_scores_well_formed (n : nat) (rewards_chosen rewards_rejected : Rewards) :
  (0 < n)%nat ->
  well_formed_rewards n rewards_chosen rewards_rejected ->
  exists score_chosen score_rejected,
    extract_scores rewards_chosen rewards_rejected = Ok (score_chosen, score_rejected) /\
    length score_chosen = n /\ length score_rejected = n.
Proof.
  intros Hn Hwf.
  destruct rewards_chosen as [rc|rc], rewards_rejected as [rr|rr]; simpl in Hwf; try done;
    destruct Hwf as [Hc Hr]; destruct rc as [| c rc]; simpl in Hc; try lia; simpl.
  - eexists _, _. split; [reflexivity |]. simpl. rewrite !length_map. auto.
  - eexists _, _. split; [reflexivity |]. simpl. auto.
Qed.

Section Inference.
Context `{herm : Herm}.

Lemma batch_results_ok (s : Setup) (rows : list TokenizedRow) (batch : Batch)
    (rewards_chosen rewards_rejected : Rewards) :
  rows <> [] ->
  DPODataCollatorWithPadding (collator_of s) rows = Ok batch ->
  inference_step (setup_dpo s) batch = Ok (rewards_chosen, rewards_rejected) ->
  well_formed_rewards (length rows) rewards_chosen rewards_rejected ->
  exists res, batch_results s rows = Ok res /\ length res = length rows /\ Forall is_bit res.
Proof.
  intros Hne Hcollate Hstep Hwf.
  assert (Hpos : (0 < length rows)%nat) by (destruct rows; [done | simpl; lia]).
  destruct (extract_scores_well_formed _ _ _ Hpos Hwf) as (sc & sr & Hext & Hsc & Hsr).
  exists (record_results [] sc sr). unfold batch_results.
  rewrite Hcollate. simpl. rewrite Hstep. simpl. rewrite Hext. simpl.
  split; [done |]. split.
  - rewrite record_results_length. simpl. lia.
  - rewrite record_results_app. simpl. apply Forall_fmap, Forall_forall.
    intros p _. apply pair_result_bit.
Qed.

(** The loop appends to [results] what each batch yields on its own. *)
Lemma inference_loop_chunks (s : Setup) (dataloader : DataLoader TokenizedRow Batch)
    (batches : list (list nat)) (chunks : list (list TokenizedRow))
    (per_batch : list (list Z)) (results : list Z) :
  dl_collate_fn dataloader = DPODataCollatorWithPadding (collator_of s) ->
  Forall2 (fun idxs chunk => result_mapM (getitem (dl_dataset dataloader)) idxs = Ok chunk)
          batches chunks ->
  Forall2 (fun rows res => batch_results s rows = Ok res) chunks per_batch ->
  inference_loop (setup_dpo s) dataloader batches results = Ok (results ++ concat per_batch).
Proof.
  intros Hcollate Hfetch. revert per_batch results.
  induction Hfetch as [| idxs chunk batches chunks Hchunk _ IH]; intros per_batch results Hres.
  - inversion Hres; subst. simpl. by rewrite app_nil_r.
  - inversion Hres as [| ? res ? rest Hbatch Hrest]; subst.
    cbn [inference_loop]. unfold fetch. rewrite Hchunk, Hcollate. simpl.
    unfold batch_results in Hbatch.
    destruct (DPODataCollatorWithPadding (collator_of s) chunk) as [batch|e];
      simpl in Hbatch |- *; [| done].
    destruct (inference_step (setup_dpo s) batch) as [[rc rr]|e];
      simpl in Hbatch |- *; [| done].
    destruct (extract_scores rc rr) as [[sc sr]|e]; simpl in Hbatch |- *; [| done].
    injection Hbatch as <-.
    rewrite (IH rest _ Hrest), (record_results_app results), (record_results_app []).
    simpl. by rewrite <- app_assoc.
Qed.

(** C3: with a positive batch size, and libraries that tokenize every
    record and return one reward per record and side for every batch, the
    loop ends with exactly one 0/1 entry per dataset record, in the order
    of the records: the tokenized dataset is cut into consecutive batches
    of at most [batch_size] rows, none of them dropped, and [results] is
    the concatenation, in the same order, of what each batch yields,
    which has one entry per row of the batch. *)
Theorem results_cover_dataset_in_order (args : Args) (s : Setup) :
  0 < batch_size args ->
  (forall row, row ∈ setup_dataset s -> exists t, tokenize_row (setup_dpo s) row = Ok t) ->
  (forall rows, rows <> [] ->
     exists batch rewards_chosen rewards_rejected,
       DPODataCollatorWithPadding (collator_of s) rows = Ok batch /\
       inference_step (setup_dpo s) batch = Ok (rewards_chosen, rewards_rejected) /\
       well_formed_rewards (length rows) rewards_chosen rewards_rejected) ->
  exists (results : list Z) (tokenized : list TokenizedRow)
         (chunks : list (list TokenizedRow)) (per_batch : list (list Z)),
    run_inference args s = Ok results /\
    Forall2 (fun row t => tokenize_row (setup_dpo s) row = Ok t) (setup_dataset s) tokenized /\
    concat chunks = tokenized /\
    Forall (fun rows => (length rows <= Z.to_nat (batch_size args))%nat) chunks /\
    Forall2 (fun rows res => batch_results s rows = Ok res /\ length res = length rows)
            chunks per_batch /\
    results = concat per_batch /\
    length results = length (setup_dataset s) /\
    Forall is_bit results.
Proof.
  intros Hsize Htok Hstep.
  destruct (result_mapM_total (tokenize_row (setup_dpo s)) (setup_dataset s) Htok)
    as [tokenized Htokenized].
  set (batches := BatchSampler (Z.to_nat (batch_size args)) false []
                    (SequentialSampler (length tokenized))).
  assert (Hconcat : concat batches = seq 0 (length tokenized)).
  { subst batches. by rewrite BatchSampler_concat. }
  destruct (fetch_chunks tokenized tokenized batches) as (chunks & Hchunks & Hcover).
  { rewrite Hconcat. apply (getitem_seq []). }
  assert (Hlen : Forall2 (fun (idxs : list nat) (chunk : list TokenizedRow) =>
                            length chunk = length idxs) batches chunks).
  { eapply Forall2_impl; [exact Hchunks |]. intros idxs chunk Hm. simpl in Hm.
    by apply result_mapM_length in Hm. }
  assert (Hnonempty : Forall (fun rows : list TokenizedRow => rows <> []) chunks).
  { eapply Forall2_Forall_r; [exact Hlen |].
    eapply Forall_impl; [apply BatchSampler_nonempty |].
    intros idxs Hne chunk Hl ->. simpl in Hl. destruct idxs; [done | discriminate]. }
  assert (Hbounded : Forall (fun rows : list TokenizedRow =>
                               (length rows <= Z.to_nat (batch_size args))%nat) chunks).
  { eapply Forall2_Forall_r; [exact Hlen |].
    eapply Forall_impl; [apply BatchSampler_bounded; simpl; lia |].
    intros idxs Hle chunk ->. exact Hle. }
  assert (Hper : exists per_batch,
             Forall2 (fun rows res => batch_results s rows = Ok res /\
                                      length res = length rows /\ Forall is_bit res)
                     chunks per_batch).
  { clear Hchunks Hcover Hlen Hbounded.
    induction Hnonempty as [| rows chunks Hne _ IH]; [exists []; constructor |].
    destruct IH as [per_batch IH].
    destruct (Hstep rows Hne) as (batch & rc & rr & Hcollate & Hinf & Hwf).
    destruct (batch_results_ok s rows batch rc rr Hne Hcollate Hinf Hwf) as (res & Hres).
    exists (res :: per_batch). by constructor. }
  destruct Hper as [per_batch Hper].
  exists (concat per_batch), tokenized, chunks, per_batch.
  split; [| repeat split].
  - unfold run_inference. rewrite Htokenized. simpl. unfold DataLoader_new.
    destruct (Z.leb_spec (batch_size args) 0) as [Hle | _]; [lia |]. simpl.
    fold batches.
    erewrite inference_loop_chunks; [reflexivity | reflexivity | exact Hchunks |].
    eapply Forall2_impl; [exact Hper |]. by intros rows res [? _].
  - by apply result_mapM_Forall2.
  - exact Hcover.
  - exact Hbounded.
  - eapply Forall2_impl; [exact Hper |]. by intros rows res (? & ? & _).
  - rewrite <- (result_mapM_length _ _ _ Htokenized), <- Hcover.
    clear -Hper. induction Hper as [| rows res chunks per_batch (_ & Hl & _) _ IH]; [done |].
    simpl. rewrite !length_app. lia.
  - apply Forall_concat. clear -Hper.
    induction Hper as [| rows res chunks per_batch (_ & _ & Hb) _ IH]; by constructor.
Qed.

End Inference.

(** ** Per-subset scores (lines 170-184) *)

Lemma elem_of_np_unique_stored (labels : list string) (x : string) :
  x ∈ np_unique labels <-> x ∈ rstrip_nul <$> labels.
Proof.
  unfold np_unique. rewrite merge_sort_Permutation. apply elem_of_remove_dups.
Qed.

Lemma no_trailing_nul_stored (labels : list string) :
  no_trailing_nul labels -> rstrip_nul <$> labels = labels.
Proof.
  induction 1 as [| label labels Hlabel _ IH]; [done |].
  by rewrite fmap_cons, Hlabel, IH.
Qed.

Lemma elem_of_np_unique (labels : list string) (x : string) :
  no_trailing_nul labels ->
  x ∈ np_unique labels <-> x ∈ labels.
Proof.
  intros Hnul. by rewrite elem_of_np_unique_stored, no_trailing_nul_stored.
Qed.

Lemma add_column_Ok {A B : Type} (dataset : list A) (column : list B)
    (out : list (A * B)) :
  add_column dataset column = Ok out <->
  length column = length dataset /\ out = zip dataset column.
Proof.
  unfold add_column. case_bool_decide; split; try done.
  - by intros [= <-].
  - by intros [_ ->].
  - by intros [? _].
Qed.

Lemma subset_has_rows {A : Type} (dataset : list A) (subsets : list string)
    (subset : string) :
  length subsets = length dataset -> subset ∈ subsets ->
  exists d, (d, subset) ∈ zip dataset subsets.
Proof.
  intros Hlen [i Hi]%list_elem_of_lookup.
  destruct (lookup_lt_is_Some_2 dataset i) as [d Hd].
  { rewrite <- Hlen. by eapply lookup_lt_Some. }
  exists d. by eapply (elem_of_lookup_zip_with_2 pair).
Qed.

Lemma num_total_positive (out_dataset : list OutRow) (example : OutRow) :
  example ∈ out_dataset -> 1 <= num_total out_dataset (subset_of example).
Proof.
  intros Hin. unfold num_total. rewrite length_map.
  assert (Hf : example ∈ filter_subset out_dataset (subset_of example)).
  { unfold filter_subset. by apply list_elem_of_filter. }
  destruct (filter_subset out_dataset (subset_of example)); [by apply elem_of_nil in Hf |].
  simpl. lia.
Qed.

Lemma num_correct_counts (out_dataset : list OutRow) (subset : string) :
  Forall (fun example => is_bit (results_of example)) out_dataset ->
  num_correct out_dataset subset = Z.of_nat (count_preferred out_dataset subset).
Proof.
  intros Hbits. unfold num_correct, count_preferred, filter_subset.
  induction Hbits as [| example out Hbit _ IH]; [reflexivity |].
  rewrite filter_cons. case_decide; [| exact IH].
  rewrite fmap_cons, py_sum_cons, filter_cons.
  change (py_sum (map results_of ?l)) with (py_sum (results_of <$> l)) in IH.
  rewrite IH. destruct Hbit as [-> | ->]; case_decide; try done; simpl; lia.
Qed.

Lemma group_subsets_Ok (out_dataset : list OutRow) (present : list string)
    (initial : gmap string json_value) :
  (forall subset, subset ∈ present -> num_total out_dataset subset <> 0) ->
  exists results_grouped,
    group_subsets out_dataset present initial = Ok results_grouped /\
    forall key,
      results_grouped !! key =
      if decide (key ∈ present) then Some (JFloat (accuracy out_dataset key))
      else initial !! key.
Proof.
  revert initial. induction present as [| subset rest IH]; intros initial Hpos.
  - exists initial. split; [done |]. intros key. case_decide as Hin; [| done].
    by apply elem_of_nil in Hin.
  - cbn [group_subsets]. unfold py_truediv.
    destruct (Z.eqb_spec (num_total out_dataset subset) 0) as [Hz | _].
    { exfalso. eapply Hpos; [by left | done]. }
    simpl. fold (accuracy out_dataset subset).
    destruct (IH (<[subset := JFloat (accuracy out_dataset subset)]> initial))
      as (rg & -> & Hrg).
    { intros x Hx. apply Hpos. by right. }
    exists rg. split; [done |]. intros key. rewrite Hrg.
    destruct (decide (key ∈ rest)) as [Hin | Hnot].
    + rewrite decide_True; [done | by right].
    + destruct (decide (key = subset)) as [-> | Hne].
      * rewrite lookup_insert_eq, decide_True; [done | by left].
      * rewrite lookup_insert_ne by done. rewrite decide_False; [done |].
        intros [? | ?]%elem_of_cons; done.
Qed.

(** C9 (amended): when no label ends in a NUL character, the subsets
    iterated over are the labels that occur in the data, so each of them
    has at least one record: [num_total] is at least 1 and the division
    raises no [ZeroDivisionError]. *)
Theorem accuracy_division_defined (dataset : list (Row * Z)) (subsets : list string)
    (out_dataset : list OutRow) (subset : string) :
  no_trailing_nul subsets ->
  add_column dataset subsets = Ok out_dataset ->
  subset ∈ np_unique subsets ->
  subset ∈ subsets /\
  1 <= num_total out_dataset subset /\
  py_truediv (num_correct out_dataset subset) (num_total out_dataset subset)
    = Ok (accuracy out_dataset subset).
Proof.
  intros Hnul [Hlen ->]%add_column_Ok Hin.
  apply (proj1 (elem_of_np_unique _ _ Hnul)) in Hin.
  destruct (subset_has_rows dataset subsets subset Hlen Hin) as [d Hd].
  pose proof (num_total_positive _ _ Hd) as Hpos. simpl in Hpos.
  repeat split; [done | done |].
  unfold py_truediv.
  destruct (Z.eqb_spec (num_total (zip dataset subsets) subset) 0) as [Hz | _]; [lia | done].
Qed.

(** ** The local results file (lines 190-203) *)

Lemma dirname_metrics_path : os_path_dirname metrics_path = metrics_dir.
Proof. reflexivity. Qed.

Section Saving.
Context `{herm : Herm}.

Lemma run_bind_Done {A B : Type} (m : Run A) (f : A -> Run B) (w w' : World) (a : A) :
  m w = Done a w' -> (m ≫= f) w = f a w'.
Proof. intros Hm. unfold mbind, Run_bind. by rewrite Hm. Qed.

Lemma run_bind_Failed {A B : Type} (m : Run A) (f : A -> Run B) (w w' : World) (e : exn) :
  m w = Failed e w' -> (m ≫= f) w = Failed e w'.
Proof. intros Hm. unfold mbind, Run_bind. by rewrite Hm. Qed.

Lemma fs_update_Ok (f : gmap string node -> result (gmap string node))
    (w : World) (files : gmap string node) :
  f (fs w) = Ok files -> fs_update f w = Done tt {| fs := files; hub := hub w |}.
Proof. intros Hf. unfold fs_update. by rewrite Hf. Qed.

Lemma save_results_Done (dumped : string) (w : World) :
  can_save (fs w) ->
  save_results metrics_path dumped w =
  Done tt (written dumped w).
Proof.
  intros [Hdir Hfile]. destruct w as [files remote]. unfold written. simpl in *.
  unfold os_path_isfile in Hdir. unfold os_path_isdir in Hfile.
  assert (Hne : metrics_dir <> metrics_path) by done.
  set (w1 := {| fs := <[metrics_dir := Dir]> files; hub := remote |}).
  set (w2 := {| fs := delete metrics_path (fs w1); hub := remote |}).
  set (w3 := {| fs := <[metrics_path := File ""]> (fs w2); hub := remote |}).
  unfold save_results. rewrite dirname_metrics_path.
  rewrite (run_bind_Done _ _ _ w1 tt).
  2:{ rewrite bool_decide_eq_false_2 by done. simpl.
      unfold fs_update, os_makedirs. simpl. subst w1.
      destruct (files !! metrics_dir) as [[content|]|] eqn:Hlook; [done | | done].
      by rewrite insert_id. }
  rewrite (run_bind_Done _ _ _ w1 (fs w1)) by done.
  rewrite (run_bind_Done _ _ _ w2 tt).
  2:{ unfold os_path_isfile. subst w1 w2. simpl. rewrite lookup_insert_ne by done.
      destruct (files !! metrics_path) as [[old|]|] eqn:Hold; [| done |].
      - unfold fs_update, os_remove. simpl. by rewrite lookup_insert_ne, Hold.
      - unfold mret, Run_ret. f_equal. f_equal. symmetry. apply delete_id.
        by rewrite lookup_insert_ne. }
  rewrite (run_bind_Done _ _ _ w3 tt).
  2:{ apply fs_update_Ok. unfold open_w. rewrite dirname_metrics_path.
      unfold os_path_isdir. subst w1 w2. simpl.
      by rewrite lookup_delete_ne, lookup_insert_eq, lookup_delete_eq. }
  unfold fs_update, file_write. subst w1 w2 w3. simpl.
  rewrite lookup_insert_eq, insert_insert_eq, insert_delete_eq. reflexivity.
Qed.

Lemma can_save_saved (dumped : string) (files : gmap string node) :
  can_save (saved dumped files).
Proof.
  unfold can_save, saved, os_path_isfile, os_path_isdir.
  rewrite lookup_insert_ne by done. by rewrite !lookup_insert_eq.
Qed.

Lemma saved_saved (dumped previous : string) (files : gmap string node) :
  saved dumped (saved previous files) = saved dumped files.
Proof.
  apply map_eq. intros key. unfold saved.
  destruct (decide (key = metrics_path)) as [-> | Hpath].
  { by rewrite !lookup_insert_eq. }
  rewrite !(lookup_insert_ne _ metrics_path) by done.
  destruct (decide (key = metrics_dir)) as [-> | Hdir].
  { by rewrite !lookup_insert_eq. }
  rewrite !(lookup_insert_ne _ metrics_dir) by done.
  by rewrite !lookup_insert_ne by done.
Qed.

Lemma upload_results_outcome (args : Args) (w : World) :
  upload_results args metrics_path w =
  if do_not_save args then Done tt w else uploaded args w.
Proof.
  unfold upload_results, uploaded. destruct (do_not_save args); simpl; [done |].
  unfold mbind, Run_bind, api_upload_file, upload_request_of, EVAL_REPO.
  destruct (pref_sets args); simpl;
    by destruct (upload_file _ (fs w) (hub w)) as [[url|e] remote].
Qed.

Lemma main_outcome (args : Args) (results_grouped : gmap string json_value) (w : World) :
  evaluate args = Ok results_grouped ->
  can_save (fs w) ->
  main args w =
  if do_not_save args then Done tt (written (json_dumps 4 results_grouped) w)
  else uploaded args (written (json_dumps 4 results_grouped) w).
Proof.
  intros Heval Hsave. unfold main.
  rewrite (run_bind_Done _ _ _ w results_grouped) by (unfold lift_result; by rewrite Heval).
  change "results/metrics.json" with metrics_path.
  rewrite (run_bind_Done _ _ _ _ tt (save_results_Done _ _ Hsave)).
  apply upload_results_outcome.
Qed.

Lemma main_final_file (args : Args) (results_grouped : gmap string json_value) (w : World) :
  evaluate args = Ok results_grouped ->
  can_save (fs w) ->
  fs (final_world (main args w)) = saved (json_dumps 4 results_grouped) (fs w).
Proof.
  intros Heval Hsave. rewrite (main_outcome _ _ _ Heval Hsave).
  destruct (do_not_save args); [done |]. unfold uploaded.
  by destruct (upload_file _ _ _) as [[url|e] remote].
Qed.

(** C10: the local write does not depend on earlier runs.  The directory
    [results] is created when missing, a file left at
    [results/metrics.json] is replaced, and afterwards the file holds
    exactly the serialization of this run's grouped results; writing
    again, or over the file of an earlier run, ends in the same state. *)
Theorem local_write_idempotent (args : Args) (results_grouped : gmap string json_value)
    (w : World) :
  evaluate args = Ok results_grouped ->
  can_save (fs w) ->
  let dumped := json_dumps 4 results_grouped in
  save_results metrics_path dumped w = Done tt (written dumped w) /\
  fs (final_world (main args w)) !! metrics_dir = Some Dir /\
  fs (final_world (main args w)) !! metrics_path = Some (File dumped) /\
  (forall p, p <> metrics_dir -> p <> metrics_path ->
     fs (final_world (main args w)) !! p = fs w !! p) /\
  save_results metrics_path dumped (written dumped w) = Done tt (written dumped w) /\
  (forall previous,
     save_results metrics_path dumped (written previous w) = Done tt (written dumped w)).
Proof.
  intros Heval Hsave dumped.
  rewrite (main_final_file _ _ _ Heval Hsave). fold dumped.
  assert (Hagain : forall previous,
    save_results metrics_path dumped (written previous w) = Done tt (written dumped w)).
  { intros previous. rewrite save_results_Done by apply can_save_saved.
    unfold written. simpl. by rewrite saved_saved. }
  repeat split.
  - by apply save_results_Done.
  - unfold saved. rewrite lookup_insert_ne by done. apply lookup_insert_eq.
  - unfold saved. apply lookup_insert_eq.
  - intros p Hd Hp. unfold saved. by rewrite !lookup_insert_ne.
  - apply Hagain.
  - apply Hagain.
Qed.

(** C5: the results file is uploaded exactly when [--do_not_save] is not
    set.  With the flag set the run ends once the local file is written,
    for every implementation of [upload_file] (none is called), and the
    remote repository is as before; without it the run ends as
    [upload_file], called on the written file, ends.  The local file is
    written in both cases. *)
Theorem upload_unless_suppressed (args : Args) (results_grouped : gmap string json_value)
    (w : World) :
  evaluate args = Ok results_grouped ->
  can_save (fs w) ->
  let dumped := json_dumps 4 results_grouped in
  (do_not_save args = true ->
     main args w = Done tt (written dumped w) /\ hub (final_world (main args w)) = hub w) /\
  (do_not_save args = false ->
     main args w = uploaded args (written dumped w) /\
     hub (final_world (main args w)) =
       (upload_file (upload_request_of args) (saved dumped (fs w)) (hub w)).2) /\
  fs (final_world (main args w)) !! metrics_path = Some (File dumped).
Proof.
  intros Heval Hsave dumped.
  pose proof (main_outcome _ _ _ Heval Hsave) as Hmain. fold dumped in Hmain.
  split; [| split].
  - rewrite Hmain. by intros ->.
  - rewrite Hmain. intros ->. split; [done |]. unfold uploaded, written. simpl.
    by destruct (upload_file _ _ _) as [[url|e] remote].
  - rewrite (main_final_file _ _ _ Heval Hsave). apply lookup_insert_eq.
Qed.

End Saving.

(** ** The grouped results (lines 170-184) and the file that holds them *)

Section Grouping.
Context `{herm : Herm}.

Lemma process_results_Ok (args : Args) (s : Setup) (results : list Z) :
  no_trailing_nul (setup_subsets s) ->
  length results = length (setup_dataset s) ->
  length (setup_subsets s) = length (setup_dataset s) ->
  exists results_grouped,
    process_results args s results = Ok results_grouped /\
    forall key,
      results_grouped !! key =
      if decide (key ∈ setup_subsets s)
      then Some (JFloat (accuracy
                   (out_dataset_of (setup_dataset s) results (setup_subsets s)) key))
      else metadata args !! key.
Proof.
  intros Hnul Hres Hsub. unfold process_results, add_column.
  rewrite bool_decide_eq_true_2 by done. simpl.
  rewrite bool_decide_eq_true_2 by (by rewrite length_zip, Hres, Nat.min_id).
  simpl. unfold group_results.
  fold (out_dataset_of (setup_dataset s) results (setup_subsets s)).
  set (out := out_dataset_of (setup_dataset s) results (setup_subsets s)).
  destruct (group_subsets_Ok out (np_unique (setup_subsets s)) (metadata args))
    as (rg & Hrg & Hlookup).
  { intros subset Hin. apply (proj1 (elem_of_np_unique _ _ Hnul)) in Hin.
    destruct (subset_has_rows (zip (setup_dataset s) results) (setup_subsets s) subset)
      as [d Hd]; [rewrite length_zip, Hres, Nat.min_id; exact Hsub | done |].
    pose proof (num_total_positive out _ Hd) as Hpos. simpl in Hpos. lia. }
  exists rg. split; [exact Hrg |]. intros key. rewrite Hlookup.
  destruct (decide (key ∈ setup_subsets s)) as [Hin | Hnot].
  - rewrite decide_True; [done | by apply elem_of_np_unique].
  - rewrite decide_False; [done |]. by rewrite elem_of_np_unique.
Qed.

(** C4 (amended): when no subset label ends in a NUL character, the local
    results file holds the serialization of a dict that has, for every
    subset label present in the data, that subset's accuracy
    ([num_correct / num_total], where [num_correct] is the number of the
    subset's pairs with result 1), the model name under ["model"] and the
    chat template under ["chat_template"] unless a subset carries that
    very label, and no other key. *)
Theorem results_file_contents (args : Args) (s : Setup) (results : list Z) (w : World) :
  setup args = Ok s ->
  run_inference args s = Ok results ->
  no_trailing_nul (setup_subsets s) ->
  length results = length (setup_dataset s) ->
  length (setup_subsets s) = length (setup_dataset s) ->
  Forall is_bit results ->
  can_save (fs w) ->
  let subsets := setup_subsets s in
  let out := out_dataset_of (setup_dataset s) results subsets in
  exists results_grouped,
    evaluate args = Ok results_grouped /\
    fs (final_world (main args w)) !! metrics_path =
      Some (File (json_dumps 4 results_grouped)) /\
    (forall subset, subset ∈ subsets ->
       results_grouped !! subset = Some (JFloat (accuracy out subset)) /\
       py_truediv (Z.of_nat (count_preferred out subset))
                  (Z.of_nat (length (filter_subset out subset)))
         = Ok (accuracy out subset)) /\
    ("model" ∉ subsets -> results_grouped !! "model" = Some (JString (model args))) /\
    ("chat_template" ∉ subsets ->
       results_grouped !! "chat_template" = Some (JString (chat_template args))) /\
    (forall key, is_Some (results_grouped !! key) <->
       key = "model" \/ key = "chat_template" \/ key ∈ subsets).
Proof.
  intros Hsetup Hrun Hnul Hres Hsub Hbits Hsave subsets out.
  destruct (process_results_Ok args s results Hnul Hres Hsub) as (rg & Hrg & Hlookup).
  fold subsets in Hlookup. fold out in Hlookup.
  assert (Heval : evaluate args = Ok rg).
  { unfold evaluate. rewrite Hsetup. simpl. rewrite Hrun. simpl. exact Hrg. }
  exists rg. split; [exact Heval |]. split.
  { rewrite (main_final_file _ _ _ Heval Hsave). apply lookup_insert_eq. }
  split; [| split; [| split]].
  - intros subset Hin. split.
    + by rewrite Hlookup, decide_True.
    + assert (Hout : Forall (fun example => is_bit (results_of example)) out).
      { apply Forall_forall. intros [[row r] sub] Hex. unfold results_of. simpl.
        apply elem_of_zip_l, elem_of_zip_r in Hex.
        by eapply Forall_forall in Hbits. }
      rewrite <- (num_correct_counts out subset Hout).
      destruct (subset_has_rows (zip (setup_dataset s) results) subsets subset)
        as [d Hd]; [rewrite length_zip, Hres, Nat.min_id; exact Hsub | done |].
      pose proof (num_total_positive out _ Hd) as Hpos. simpl in Hpos.
      unfold accuracy, py_truediv.
      assert (Htotal : num_total out subset = Z.of_nat (length (filter_subset out subset))).
      { unfold num_total. by rewrite length_map. }
      rewrite <- Htotal.
      destruct (Z.eqb_spec (num_total out subset) 0) as [Hz | _]; [lia | done].
  - intros Hnot. by rewrite Hlookup, decide_False.
  - intros Hnot. by rewrite Hlookup, decide_False.
  - intros key. rewrite Hlookup. unfold metadata.
    destruct (decide (key ∈ subsets)) as [Hin | Hnot].
    + split; [auto | by eexists].
    + destruct (decide (key = "chat_template")) as [-> | Hc].
      { rewrite lookup_insert_eq. split; [auto | by eexists]. }
      rewrite lookup_insert_ne by done.
      destruct (decide (key = "model")) as [-> | Hm].
      { rewrite lookup_insert_eq. split; [auto | by eexists]. }
      rewrite lookup_insert_ne by done. rewrite lookup_empty.
      split; [by intros [? ?] | by intros [? | [? | ?]]].
Qed.

End Grouping.

(** ** Exceptions are not caught *)

Ltac run_calls :=
  repeat match goal with
         | H : _ = Ok _ |- _ => rewrite H; clear H; simpl
         | H : _ = Raise _ |- _ => rewrite H; clear H; simpl
         end;
  try reflexivity.

Lemma result_mapM_raise {A B : Type} (f : A -> result B) (pre post : list A) (x : A)
    (e : exn) :
  Forall (fun y => exists b, f y = Ok b) pre ->
  f x = Raise e ->
  result_mapM f (pre ++ x :: post) = Raise e.
Proof.
  intros Hpre Hx. induction Hpre as [| y pre [b Hy] _ IH]; simpl.
  - by rewrite Hx.
  - by rewrite Hy, IH.
Qed.

Section Errors.
Context `{herm : Herm}.

Lemma inference_loop_app (dpo : DPOInference) (dataloader : DataLoader TokenizedRow Batch)
    (pre rest : list (list nat)) (results : list Z) :
  inference_loop dpo dataloader (pre ++ rest) results =
  (partial ← inference_loop dpo dataloader pre results;
   inference_loop dpo dataloader rest partial).
Proof.
  revert results. induction pre as [| idxs pre IH]; intros results; [done |].
  cbn [app inference_loop].
  destruct (fetch dataloader idxs) as [batch|e]; simpl; [| done].
  destruct (inference_step dpo batch) as [[rc rr]|e]; simpl; [| done].
  destruct (extract_scores rc rr) as [[sc sr]|e]; simpl; [| done].
  apply IH.
Qed.

Lemma main_evaluate_raise (args : Args) (w : World) (e : exn) :
  evaluate args = Raise e -> main args w = Failed e w.
Proof.
  intros Heval. unfold main. apply run_bind_Failed.
  unfold lift_result. by rewrite Heval.
Qed.

Lemma setup_raise_main (args : Args) (w : World) (e : exn) :
  setup args = Raise e -> main args w = Failed e w.
Proof.
  intros Hs. apply main_evaluate_raise. unfold evaluate. by rewrite Hs.
Qed.

Lemma run_inference_raise_main (args : Args) (s : Setup) (w : World) (e : exn) :
  setup args = Ok s -> run_inference args s = Raise e -> main args w = Failed e w.
Proof.
  intros Hs Hr. apply main_evaluate_raise. unfold evaluate. rewrite Hs. simpl.
  by rewrite Hr.
Qed.

(** C6: nothing in the script catches an exception.  Whichever library
    call raises first (accelerator, chat template, tokenizer, dataset,
    either model, the DPO wrapper, tokenization of a record, collation or
    inference of a batch, a dataset column, a file operation, the
    upload), [main] ends with that same exception, in the world reached
    when it was raised, and runs nothing after it. *)
Theorem exceptions_propagate (args : Args) (w : World) (e : exn) :
  (* lines 66-126 *)
  (Accelerator_new = Raise e -> main args w = Failed e w) /\
  (forall accelerator,
     Accelerator_new = Ok accelerator ->
     get_conv_template (chat_template args) = Raise e ->
     main args w = Failed e w) /\
  (forall accelerator conv,
     Accelerator_new = Ok accelerator ->
     get_conv_template (chat_template args) = Ok conv ->
     AutoTokenizer_from_pretrained (tokenizer_path args) = Raise e ->
     main args w = Failed e w) /\
  (forall accelerator conv tok,
     Accelerator_new = Ok accelerator ->
     get_conv_template (chat_template args) = Ok conv ->
     AutoTokenizer_from_pretrained (tokenizer_path args) = Ok tok ->
     load_eval_dataset (negb (pref_sets args)) conv tok ["text_chosen"; "text_rejected"]
       = Raise e ->
     main args w = Failed e w) /\
  (forall accelerator conv tok data,
     Accelerator_new = Ok accelerator ->
     get_conv_template (chat_template args) = Ok conv ->
     AutoTokenizer_from_pretrained (tokenizer_path args) = Ok tok ->
     load_eval_dataset (negb (pref_sets args)) conv tok ["text_chosen"; "text_rejected"]
       = Ok data ->
     AutoModelForCausalLM_from_pretrained (model args) (kwargs_of accelerator) = Raise e ->
     main args w = Failed e w) /\
  (forall accelerator conv tok data policy,
     Accelerator_new = Ok accelerator ->
     get_conv_template (chat_template args) = Ok conv ->
     AutoTokenizer_from_pretrained (tokenizer_path args) = Ok tok ->
     load_eval_dataset (negb (pref_sets args)) conv tok ["text_chosen"; "text_rejected"]
       = Ok data ->
     AutoModelForCausalLM_from_pretrained (model args) (kwargs_of accelerator) = Ok policy ->
     AutoModelForCausalLM_from_pretrained (ref_model args) (kwargs_of accelerator) = Raise e ->
     main args w = Failed e w) /\
  (forall accelerator conv tok data policy reference,
     Accelerator_new = Ok accelerator ->
     get_conv_template (chat_template args) = Ok conv ->
     AutoTokenizer_from_pretrained (tokenizer_path args) = Ok tok ->
     load_eval_dataset (negb (pref_sets args)) conv tok ["text_chosen"; "text_rejected"]
       = Ok data ->
     AutoModelForCausalLM_from_pretrained (model args) (kwargs_of accelerator) = Ok policy ->
     AutoModelForCausalLM_from_pretrained (ref_model args) (kwargs_of accelerator)
       = Ok reference ->
     DPOInference_new policy reference tok accelerator = Raise e ->
     main args w = Failed e w) /\
  (* lines 128-164 *)
  (forall s pre row post,
     setup args = Ok s ->
     setup_dataset s = pre ++ row :: post ->
     Forall (fun r => exists t, tokenize_row (setup_dpo s) r = Ok t) pre ->
     tokenize_row (setup_dpo s) row = Raise e ->
     main args w = Failed e w) /\
  (forall s tokenized dataloader pre idxs post partial,
     setup args = Ok s ->
     result_mapM (tokenize_row (setup_dpo s)) (setup_dataset s) = Ok tokenized ->
     DataLoader_new tokenized (batch_size args)
       (DPODataCollatorWithPadding (collator_of s)) false = Ok dataloader ->
     dl_batch_sampler dataloader = pre ++ idxs :: post ->
     inference_loop (setup_dpo s) dataloader pre [] = Ok partial ->
     (fetch dataloader idxs = Raise e \/
      exists batch, fetch dataloader idxs = Ok batch /\
                    inference_step (setup_dpo s) batch = Raise e) ->
     main args w = Failed e w) /\
  (* lines 170-184 *)
  (forall s results,
     setup args = Ok s ->
     run_inference args s = Ok results ->
     process_results args s results = Raise e ->
     main args w = Failed e w) /\
  (* lines 190-203 *)
  (forall results_grouped w',
     evaluate args = Ok results_grouped ->
     save_results metrics_path (json_dumps 4 results_grouped) w = Failed e w' ->
     main args w = Failed e w') /\
  (forall dumped, os_makedirs metrics_dir true (fs w) = Raise e ->
     save_results metrics_path dumped w = Failed e w) /\
  (forall dumped, os_path_isfile (fs w) metrics_dir = false ->
     os_path_isfile (fs w) metrics_path = false ->
     open_w metrics_path (<[metrics_dir := Dir]> (fs w)) = Raise e ->
     save_results metrics_path dumped w =
     Failed e {| fs := <[metrics_dir := Dir]> (fs w); hub := hub w |}) /\
  (* lines 206-215 *)
  (forall results_grouped remote,
     evaluate args = Ok results_grouped ->
     can_save (fs w) ->
     do_not_save args = false ->
     upload_file (upload_request_of args)
       (saved (json_dumps 4 results_grouped) (fs w)) (hub w) = (Raise e, remote) ->
     main args w =
     Failed e {| fs := saved (json_dumps 4 results_grouped) (fs w); hub := remote |}).
Proof.
  repeat apply conj.
  - intros. apply setup_raise_main. unfold setup. run_calls.
  - intros. apply setup_raise_main. unfold setup. run_calls.
  - intros. apply setup_raise_main. unfold setup. run_calls.
  - intros. apply setup_raise_main. unfold setup. run_calls.
  - intros ? ? ? [dataset subsets]. intros. apply setup_raise_main.
    unfold setup, kwargs_of in *. run_calls.
  - intros ? ? ? [dataset subsets]. intros. apply setup_raise_main.
    unfold setup, kwargs_of in *. run_calls.
  - intros ? ? ? [dataset subsets]. intros. apply setup_raise_main.
    unfold setup, kwargs_of in *. run_calls.
  - intros s pre row post Hs Hds Hpre Hrow. apply (run_inference_raise_main _ s _ _ Hs).
    unfold run_inference. rewrite Hds.
    by rewrite (result_mapM_raise _ pre post row e Hpre Hrow).
  - intros s tokenized dl pre idxs post partial Hs Htok Hdl Hbatches Hpre Hfail.
    apply (run_inference_raise_main _ s _ _ Hs).
    unfold run_inference. rewrite Htok. simpl.
    fold (collator_of s). rewrite Hdl. simpl.
    rewrite Hbatches, inference_loop_app, Hpre. simpl.
    destruct Hfail as [Hfetch | (batch & Hfetch & Hstep)].
    + by rewrite Hfetch.
    + rewrite Hfetch. simpl. by rewrite Hstep.
  - intros s results Hs Hrun Hproc. apply main_evaluate_raise.
    unfold evaluate. rewrite Hs. simpl. rewrite Hrun. simpl. exact Hproc.
  - intros rg w' Heval Hsave. unfold main.
    rewrite (run_bind_Done _ _ _ w rg) by (unfold lift_result; by rewrite Heval).
    apply run_bind_Failed. exact Hsave.
  - intros dumped Hmk. unfold save_results. rewrite dirname_metrics_path.
    apply run_bind_Failed. rewrite bool_decide_eq_false_2 by done. simpl.
    unfold fs_update. by rewrite Hmk.
  - intros dumped Hdir Hfile Hopen. unfold save_results. rewrite dirname_metrics_path.
    set (w1 := {| fs := <[metrics_dir := Dir]> (fs w); hub := hub w |}).
    rewrite (run_bind_Done _ _ _ w1 tt).
    2:{ rewrite bool_decide_eq_false_2 by done. simpl.
        unfold fs_update, os_makedirs. unfold os_path_isfile in Hdir. subst w1.
        destruct (fs w !! metrics_dir) as [[content|]|] eqn:Hlook; [done | | done].
        by rewrite insert_id. }
    rewrite (run_bind_Done _ _ _ w1 (fs w1)) by done.
    rewrite (run_bind_Done _ _ _ w1 tt).
    2:{ unfold os_path_isfile in *. subst w1. simpl.
        rewrite lookup_insert_ne by done.
        by destruct (fs w !! metrics_path) as [[old|]|]. }
    apply run_bind_Failed. unfold fs_update. subst w1. simpl. by rewrite Hopen.
  - intros rg remote Heval Hsave Hflag Hup.
    rewrite (main_outcome _ _ _ Heval Hsave), Hflag. unfold uploaded, written. simpl.
    by rewrite Hup.
Qed.

End Errors.

(** ** The implicit reward (lines 121-126 and 149) *)

Section DPOReward.
Context `{Libraries}.
Variable sequence_logps : Model -> Batch -> list spec_float * list spec_float.
Variables tensor_prec tensor_emax : Z.
Variable load_eval_dataset_spec :
  bool -> Conversation -> Tokenizer -> list string -> result (list Row * list string).
Variable tokenize_row_spec : Tokenizer -> Row -> result TokenizedRow.
Variable label_pad_token_id_spec : Z.
Variable is_encoder_decoder_spec : bool.

Let herm_spec : Herm :=
  Herm_spec sequence_logps tensor_prec tensor_emax load_eval_dataset_spec
    tokenize_row_spec label_pad_token_id_spec is_encoder_decoder_spec.

(** C2: the inference step [main] calls is built over the model loaded
    from [--model] as the policy and the model loaded from [--ref_model]
    as the reference, and the reward it returns for each record and side
    is the implicit reward of that completion: the policy's sequence
    log-probability compared with the reference's, as their log-ratio. *)
Theorem implicit_rewards_follow_formula (args : Args) (s : @Setup _ herm_spec)
    (batch : Batch) :
  @setup _ herm_spec args = Ok s ->
  exists accelerator policy reference rewards_chosen rewards_rejected,
    Accelerator_new = Ok accelerator /\
    AutoModelForCausalLM_from_pretrained (model args) (kwargs_of accelerator) = Ok policy /\
    AutoModelForCausalLM_from_pretrained (ref_model args) (kwargs_of accelerator)
      = Ok reference /\
    @inference_step _ herm_spec (setup_dpo s) batch
      = Ok (Tensor rewards_chosen, Tensor rewards_rejected) /\
    (forall i policy_logp reference_logp,
       (sequence_logps policy batch).1 !! i = Some policy_logp ->
       (sequence_logps reference batch).1 !! i = Some reference_logp ->
       rewards_chosen !! i =
       Some (implicit_reward tensor_prec tensor_emax policy_logp reference_logp)) /\
    (forall i policy_logp reference_logp,
       (sequence_logps policy batch).2 !! i = Some policy_logp ->
       (sequence_logps reference batch).2 !! i = Some reference_logp ->
       rewards_rejected !! i =
       Some (implicit_reward tensor_prec tensor_emax policy_logp reference_logp)).
Proof.
  unfold setup. intros Hsetup.
  destruct Accelerator_new as [accelerator|e] eqn:Hacc; simpl in Hsetup; [| done].
  destruct (get_conv_template (chat_template args)) as [conv|e]; simpl in Hsetup; [| done].
  destruct (AutoTokenizer_from_pretrained (tokenizer_path args)) as [tok|e];
    simpl in Hsetup; [| done].
  destruct (load_eval_dataset_spec _ conv tok _) as [[dataset subsets]|e];
    simpl in Hsetup; [| done].
  fold (kwargs_of accelerator) in Hsetup.
  destruct (AutoModelForCausalLM_from_pretrained (model args) (kwargs_of accelerator))
    as [policy|e] eqn:Hpolicy; simpl in Hsetup; [| done].
  destruct (AutoModelForCausalLM_from_pretrained (ref_model args) (kwargs_of accelerator))
    as [reference|e] eqn:Hreference; simpl in Hsetup; [| done].
  injection Hsetup as <-. simpl.
  unfold inference_step_spec. simpl.
  destruct (sequence_logps policy batch) as [pc pr] eqn:Hpl.
  destruct (sequence_logps reference batch) as [rc rr] eqn:Hrl. simpl.
  exists accelerator, policy, reference. eexists _, _.
  split; [reflexivity |]. split; [exact Hpolicy |]. split; [exact Hreference |].
  split; [reflexivity |]. simpl. split.
  - intros i p r Hp Hr. rewrite Hpl in Hp. rewrite Hrl in Hr. simpl in Hp, Hr.
    by rewrite list.lookup_zip_with, Hp, Hr.
  - intros i p r Hp Hr. rewrite Hpl in Hp. rewrite Hrl in Hr. simpl in Hp, Hr.
    by rewrite list.lookup_zip_with, Hp, Hr.
Qed.

End DPOReward.

(** ** The statements on the small instance *)

Lemma pair_result_recorded_witness :
  [float_of_int 3; float_of_int 2] !! 1%nat = Some (float_of_int 2) /\
  [float_of_int 1; float_of_int 2] !! 1%nat = Some (float_of_int 2) /\
  let entry :=
    record_results [1] [float_of_int 3; float_of_int 2] [float_of_int 1; float_of_int 2]
      !! (length [1] + 1)%nat in
  (SFcompare (float_of_int 2) (float_of_int 2) = Some Gt -> entry = Some 1) /\
  (SFcompare (float_of_int 2) (float_of_int 2) <> Some Gt -> entry = Some 0) /\
  (SFcompare (float_of_int 2) (float_of_int 2) = Some Eq -> entry = Some 0) /\
  py_sum (record_results [] [float_of_int 3; float_of_int 2]
            [float_of_int 1; float_of_int 2]) =
    Z.of_nat (length (filter (fun p => float_gt p.1 p.2 = true)
                        (zip [float_of_int 3; float_of_int 2]
                             [float_of_int 1; float_of_int 2]))).
Proof.
  split; [reflexivity |]. split; [reflexivity |].
  apply (pair_result_recorded [1] [float_of_int 3; float_of_int 2]
           [float_of_int 1; float_of_int 2] 1 (float_of_int 2) (float_of_int 2));
    reflexivity.
Defined.

Lemma results_cover_dataset_witness :
  0 < batch_size demo_args /\
  exists (results : list Z) (tokenized : list Row)
         (chunks : list (list Row)) (per_batch : list (list Z)),
    @run_inference demo_libraries demo_herm demo_args demo_setup = Ok results /\
    Forall2 (fun row t => @tokenize_row demo_libraries demo_herm (setup_dpo demo_setup) row
                          = Ok t)
            (setup_dataset demo_setup) tokenized /\
    concat chunks = tokenized /\
    Forall (fun rows => (length rows <= Z.to_nat (batch_size demo_args))%nat) chunks /\
    Forall2 (fun rows res => @batch_results demo_libraries demo_herm demo_setup rows = Ok res /\
                             length res = length rows)
            chunks per_batch /\
    results = concat per_batch /\
    length results = length (setup_dataset demo_setup) /\
    Forall is_bit results.
Proof.
  split; [reflexivity |].
  apply (@results_cover_dataset_in_order demo_libraries demo_herm demo_args demo_setup).
  - reflexivity.
  - intros row _. by eexists.
  - intros rows _. eexists rows, _, _.
    split; [reflexivity |]. split; [reflexivity |].
    simpl. by rewrite !length_fmap.
Defined.

Lemma demo_subsets_no_nul : no_trailing_nul demo_subsets.
Proof. repeat constructor. Qed.

(** C9, as stated, does not hold: for a label that ends in a NUL
    character the loop iterates over the label without it, no record is
    in that subset, and the division raises [ZeroDivisionError]. *)
Lemma nul_label_divides_by_zero :
  ("a" ∈ np_unique [String "a" (String nul EmptyString)]) /\
  ("a" ∉ [String "a" (String nul EmptyString)]) /\
  (num_total [(({| text_chosen := "Yes."; text_rejected := "No." |}, 1),
               String "a" (String nul EmptyString))] "a" = 0) /\
  (@evaluate demo_libraries nul_labelled_herm demo_args = Raise ZeroDivisionError).
Proof.
  split; [apply (bool_decide_unpack _); vm_compute; exact I |].
  split; [apply (bool_decide_unpack _); vm_compute; exact I |].
  split; reflexivity.
Qed.

Lemma accuracy_division_witness :
  no_trailing_nul demo_subsets /\
  add_column (zip demo_dataset demo_results) demo_subsets
    = Ok (out_dataset_of demo_dataset demo_results demo_subsets) /\
  "mt-bench-hard" ∈ np_unique demo_subsets /\
  "mt-bench-hard" ∈ demo_subsets /\
  1 <= num_total (out_dataset_of demo_dataset demo_results demo_subsets) "mt-bench-hard" /\
  py_truediv (num_correct (out_dataset_of demo_dataset demo_results demo_subsets) "mt-bench-hard")
             (num_total (out_dataset_of demo_dataset demo_results demo_subsets) "mt-bench-hard")
    = Ok (accuracy (out_dataset_of demo_dataset demo_results demo_subsets) "mt-bench-hard").
Proof.
  assert (Hin : "mt-bench-hard" ∈ np_unique demo_subsets)
    by (apply (bool_decide_unpack _); vm_compute; exact I).
  split; [exact demo_subsets_no_nul |]. split; [reflexivity |]. split; [exact Hin |].
  apply (accuracy_division_defined (zip demo_dataset demo_results) demo_subsets);
    [exact demo_subsets_no_nul | reflexivity | exact Hin].
Defined.

Lemma demo_evaluate :
  @evaluate demo_libraries demo_herm demo_args = Ok demo_results_grouped.
Proof. vm_compute. reflexivity. Qed.

Lemma demo_can_save : can_save (fs demo_world).
Proof. split; reflexivity. Qed.

Lemma results_file_contents_witness :
  @setup demo_libraries demo_herm demo_args = Ok demo_setup /\
  @run_inference demo_libraries demo_herm demo_args demo_setup = Ok demo_results /\
  no_trailing_nul (setup_subsets demo_setup) /\
  can_save (fs demo_world) /\
  exists results_grouped,
    @evaluate demo_libraries demo_herm demo_args = Ok results_grouped /\
    fs (final_world (@main demo_libraries demo_herm demo_args demo_world)) !! metrics_path =
      Some (File (@json_dumps demo_libraries 4 results_grouped)) /\
    (forall subset, subset ∈ demo_subsets ->
       results_grouped !! subset =
         Some (JFloat (accuracy (out_dataset_of demo_dataset demo_results demo_subsets) subset)) /\
       py_truediv
         (Z.of_nat (count_preferred (out_dataset_of demo_dataset demo_results demo_subsets) subset))
         (Z.of_nat (length (filter_subset
                              (out_dataset_of demo_dataset demo_results demo_subsets) subset)))
         = Ok (accuracy (out_dataset_of demo_dataset demo_results demo_subsets) subset)) /\
    ("model" ∉ demo_subsets -> results_grouped !! "model" = Some (JString (model demo_args))) /\
    ("chat_template" ∉ demo_subsets ->
       results_grouped !! "chat_template" = Some (JString (chat_template demo_args))) /\
    (forall key, is_Some (results_grouped !! key) <->
       key = "model" \/ key = "chat_template" \/ key ∈ demo_subsets).
Proof.
  split; [reflexivity |]. split; [reflexivity |].
  split; [exact demo_subsets_no_nul |]. split; [exact demo_can_save |].
  apply (@results_file_contents demo_libraries demo_herm demo_args demo_setup
           demo_results demo_world).
  - reflexivity.
  - reflexivity.
  - exact demo_subsets_no_nul.
  - reflexivity.
  - reflexivity.
  - unfold demo_results, is_bit. repeat (constructor; [lia |]). constructor.
  - exact demo_can_save.
Defined.

(** C4, as stated, does not hold: when a subset is itself labelled
    ["model"], the file holds that subset's accuracy under ["model"], not
    the model name. *)
Lemma model_key_holds_subset_accuracy :
  exists results_grouped,
    @evaluate demo_libraries model_labelled_herm demo_args = Ok results_grouped /\
    fs (final_world (@main demo_libraries model_labelled_herm demo_args demo_world))
      !! metrics_path = Some (File (@json_dumps demo_libraries 4 results_grouped)) /\
    results_grouped !! "model" = Some (JFloat (float_of_int 1)) /\
    results_grouped !! "model" <> Some (JString (model demo_args)).
Proof.
  eexists. split; [vm_compute; reflexivity |].
  split; [vm_compute; reflexivity |].
  split; [vm_compute; reflexivity | vm_compute; discriminate].
Qed.

Lemma local_write_witness :
  @evaluate demo_libraries demo_herm demo_args = Ok demo_results_grouped /\
  can_save (fs demo_world) /\
  let dumped := @json_dumps demo_libraries 4 demo_results_grouped in
  save_results metrics_path dumped demo_world = Done tt (written dumped demo_world) /\
  fs (final_world (@main demo_libraries demo_herm demo_args demo_world)) !! metrics_dir
    = Some Dir /\
  fs (final_world (@main demo_libraries demo_herm demo_args demo_world)) !! metrics_path
    = Some (File dumped) /\
  (forall p, p <> metrics_dir -> p <> metrics_path ->
     fs (final_world (@main demo_libraries demo_herm demo_args demo_world)) !! p
     = fs demo_world !! p) /\
  save_results metrics_path dumped (written dumped demo_world)
    = Done tt (written dumped demo_world) /\
  (forall previous,
     save_results metrics_path dumped (written previous demo_world)
     = Done tt (written dumped demo_world)).
Proof.
  split; [exact demo_evaluate |]. split; [exact demo_can_save |].
  exact (@local_write_idempotent demo_libraries demo_herm demo_args demo_results_grouped
           demo_world demo_evaluate demo_can_save).
Defined.

Lemma upload_unless_suppressed_witness :
  @evaluate demo_libraries demo_herm demo_args = Ok demo_results_grouped /\
  can_save (fs demo_world) /\
  let dumped := @json_dumps demo_libraries 4 demo_results_grouped in
  (do_not_save demo_args = true ->
     @main demo_libraries demo_herm demo_args demo_world = Done tt (written dumped demo_world) /\
     hub (final_world (@main demo_libraries demo_herm demo_args demo_world)) = hub demo_world) /\
  (do_not_save demo_args = false ->
     @main demo_libraries demo_herm demo_args demo_world
       = uploaded demo_args (written dumped demo_world) /\
     hub (final_world (@main demo_libraries demo_herm demo_args demo_world)) =
       (upload_file (upload_request_of demo_args) (saved dumped (fs demo_world))
          (hub demo_world)).2) /\
  fs (final_world (@main demo_libraries demo_herm demo_args demo_world)) !! metrics_path
    = Some (File dumped).
Proof.
  split; [exact demo_evaluate |]. split; [exact demo_can_save |].
  exact (@upload_unless_suppressed demo_libraries demo_herm demo_args demo_results_grouped
           demo_world demo_evaluate demo_can_save).
Defined.

(** The run on the small instance uploads once; with [--do_not_save] it
    uploads nothing. *)
Example demo_run_uploads :
  hub (final_world (@main demo_libraries demo_herm demo_args demo_world))
    = [upload_request_of demo_args] /\
  hub (final_world (@main demo_libraries demo_herm_spec demo_args_spec demo_world)) = [].
Proof. split; vm_compute; reflexivity. Qed.

Lemma implicit_rewards_witness :
  @setup demo_libraries demo_herm_spec demo_args_spec = Ok demo_setup_spec /\
  exists accelerator policy reference rewards_chosen rewards_rejected,
    @Accelerator_new demo_libraries = Ok accelerator /\
    @AutoModelForCausalLM_from_pretrained demo_libraries (model demo_args_spec)
      (kwargs_of accelerator) = Ok policy /\
    @AutoModelForCausalLM_from_pretrained demo_libraries (ref_model demo_args_spec)
      (kwargs_of accelerator) = Ok reference /\
    @inference_step demo_libraries demo_herm_spec (setup_dpo demo_setup_spec) demo_dataset
      = Ok (Tensor rewards_chosen, Tensor rewards_rejected) /\
    (forall i policy_logp reference_logp,
       (demo_sequence_logps policy demo_dataset).1 !! i = Some policy_logp ->
       (demo_sequence_logps reference demo_dataset).1 !! i = Some reference_logp ->
       rewards_chosen !! i = Some (implicit_reward 24 128 policy_logp reference_logp)) /\
    (forall i policy_logp reference_logp,
       (demo_sequence_logps policy demo_dataset).2 !! i = Some policy_logp ->
       (demo_sequence_logps reference demo_dataset).2 !! i = Some reference_logp ->
       rewards_rejected !! i = Some (implicit_reward 24 128 policy_logp reference_logp)).
Proof.
  split; [reflexivity |].
  apply (@implicit_rewards_follow_formula demo_libraries demo_sequence_logps 24 128
           (fun _ _ _ _ => Ok (demo_dataset, demo_subsets)) (fun _ row => Ok row) (-100) false
           demo_args_spec demo_setup_spec demo_dataset).
  reflexivity.
Defined.

Lemma exceptions_propagate_witness :
  os_makedirs metrics_dir true (fs blocked_world) = Raise FileExistsError /\
  save_results metrics_path "{}" blocked_world = Failed FileExistsError blocked_world.
Proof.
  split; [reflexivity |].
  apply (@exceptions_propagate demo_libraries demo_herm demo_args blocked_world FileExistsError).
  reflexivity.
Defined.

(** * Further properties of the script *)

(** ** The batches of the loader (lines 132-143) *)

Lemma BatchSampler_fill (batch_size : nat) (batch l1 l2 : list nat) :
  (length batch + length l1 = batch_size)%nat -> l1 <> [] ->
  BatchSampler batch_size false batch (l1 ++ l2) =
  (rev batch ++ l1) :: BatchSampler batch_size false [] l2.
Proof.
  revert batch. induction l1 as [| idx l1 IH]; intros batch Hlen Hne; [done |].
  cbn [app BatchSampler]. simpl in Hlen.
  destruct l1 as [| idx' l1].
  - rewrite bool_decide_eq_true_2 by (simpl in *; lia). reflexivity.
  - rewrite bool_decide_eq_false_2 by (simpl in *; lia).
    rewrite (IH (idx :: batch)) by (simpl in *; done || lia).
    simpl. by rewrite <- app_assoc.
Qed.

Lemma BatchSampler_partial (batch_size : nat) (batch l : list nat) :
  (length batch + length l < batch_size)%nat -> rev batch ++ l <> [] ->
  BatchSampler batch_size false batch l = [rev batch ++ l].
Proof.
  revert batch. induction l as [| idx l IH]; intros batch Hlen Hne; cbn [BatchSampler].
  - rewrite app_nil_r in *. rewrite andb_true_r.
    rewrite bool_decide_eq_true_2; [done |].
    destruct batch; [done | simpl; lia].
  - simpl in Hlen. rewrite bool_decide_eq_false_2 by (simpl; lia).
    rewrite IH.
    + simpl. by rewrite <- app_assoc.
    + simpl. lia.
    + simpl. rewrite <- app_assoc. simpl. by destruct (rev batch).
Qed.

(** The batches of a sequential sampler, one at a time. *)
Lemma BatchSampler_seq (batch_size start n : nat) :
  (0 < batch_size)%nat ->
  BatchSampler batch_size false [] (seq start n) =
  if decide (n = 0)%nat then []
  else seq start (Nat.min batch_size n)
       :: BatchSampler batch_size false [] (seq (start + batch_size) (n - batch_size)).
Proof.
  intros Hpos. destruct (decide (n = 0)%nat) as [-> | Hn]; [done |].
  destruct (decide (n < batch_size)%nat) as [Hlt | Hge].
  - rewrite BatchSampler_partial.
    + rewrite Nat.min_r by lia. replace (n - batch_size)%nat with 0%nat by lia. done.
    + simpl. rewrite length_seq. lia.
    + simpl. destruct n; [done | discriminate].
  - rewrite Nat.min_l by lia.
    replace n with (batch_size + (n - batch_size))%nat at 1 by lia.
    rewrite seq_app. rewrite BatchSampler_fill; [done | |].
    + simpl. rewrite length_seq. lia.
    + destruct batch_size; [lia | discriminate].
Qed.

Lemma BatchSampler_seq_lookup (batch_size : nat) (i start n : nat) :
  (0 < batch_size)%nat ->
  BatchSampler batch_size false [] (seq start n) !! i =
  if decide (i * batch_size < n)%nat
  then Some (seq (start + i * batch_size) (Nat.min batch_size (n - i * batch_size)))
  else None.
Proof.
  intros Hpos. revert start n. induction i as [| i IH]; intros start n.
  - rewrite BatchSampler_seq by done. simpl.
    destruct (decide (n = 0)%nat) as [-> | Hn].
    + by rewrite decide_False by lia.
    + rewrite decide_True by lia. simpl. by rewrite Nat.add_0_r, Nat.sub_0_r.
  - rewrite BatchSampler_seq by done.
    destruct (decide (n = 0)%nat) as [-> | Hn].
    + by rewrite decide_False by lia.
    + simpl. rewrite IH.
      destruct (decide (i * batch_size < n - batch_size)%nat) as [Hlt | Hge].
      * rewrite decide_True by lia. do 2 f_equal; lia.
      * by rewrite decide_False by lia.
Qed.

Lemma DataLoader_new_Ok {A B : Type} (dataset : list A) (batch_size : Z)
    (collate_fn : list A -> result B) (drop_last : bool) (dataloader : DataLoader A B) :
  DataLoader_new dataset batch_size collate_fn drop_last = Ok dataloader ->
  0 < batch_size /\
  dl_dataset dataloader = dataset /\
  dl_collate_fn dataloader = collate_fn /\
  dl_batch_sampler dataloader =
    BatchSampler (Z.to_nat batch_size) drop_last [] (SequentialSampler (length dataset)).
Proof.
  unfold DataLoader_new. destruct (Z.leb_spec batch_size 0); [done |].
  intros [= <-]. by repeat split.
Qed.

(** The batches are runs of consecutive indices: batch [i] starts at index
    [i * batch_size] and holds [batch_size] indices, or what is left of
    the dataset when that is less. *)
Theorem loader_batches_consecutive {A B : Type} (dataset : list A) (batch_size : Z)
    (collate_fn : list A -> result B) (dataloader : DataLoader A B) (i : nat) :
  DataLoader_new dataset batch_size collate_fn false = Ok dataloader ->
  dl_batch_sampler dataloader !! i =
  if decide (i * Z.to_nat batch_size < length dataset)%nat
  then Some (seq (i * Z.to_nat batch_size)
               (Nat.min (Z.to_nat batch_size) (length dataset - i * Z.to_nat batch_size)))
  else None.
Proof.
  intros (Hpos & _ & _ & ->)%DataLoader_new_Ok.
  unfold SequentialSampler. rewrite BatchSampler_seq_lookup by lia. reflexivity.
Qed.

Lemma length_by_lookup {A : Type} (l : list A) (k : nat) :
  (forall i, is_Some (l !! i) <-> (i < k)%nat) -> length l = k.
Proof.
  intros Hl.
  destruct (Nat.lt_trichotomy (length l) k) as [Hlt | [Heq | Hgt]]; [| done |].
  - apply Hl, lookup_lt_is_Some in Hlt. lia.
  - apply lookup_lt_is_Some, Hl in Hgt. lia.
Qed.

(** The loop runs [ceil(n / batch_size)] inference steps on a dataset of
    [n] records. *)
Theorem loader_step_count {A B : Type} (dataset : list A) (batch_size : Z)
    (collate_fn : list A -> result B) (dataloader : DataLoader A B) :
  DataLoader_new dataset batch_size collate_fn false = Ok dataloader ->
  length (dl_batch_sampler dataloader) =
  ((length dataset + Z.to_nat batch_size - 1) / Z.to_nat batch_size)%nat.
Proof.
  intros (Hpos & _ & _ & ->)%DataLoader_new_Ok.
  apply length_by_lookup. intros i.
  unfold SequentialSampler. rewrite BatchSampler_seq_lookup by lia.
  set (b := Z.to_nat batch_size). set (n := length dataset).
  assert (Hb : (0 < b)%nat) by (subst b; lia).
  pose proof (Nat.div_mod_eq (n + b - 1) b) as Hdiv.
  pose proof (Nat.mod_upper_bound (n + b - 1) b ltac:(lia)) as Hmod.
  destruct (decide (i * b < n)%nat) as [Hlt | Hge].
  - split; [intros _ | by eexists]. nia.
  - split; [by intros [? ?] |]. intros Hi. exfalso. nia.
Qed.

(** ** What the loop records (lines 145-164) *)

Lemma SFcompare_Gt_swap (a b : spec_float) :
  SFcompare a b = Some Gt -> SFcompare b a = Some Lt.
Proof.
  destruct a as [sa | sa | | sa ma ea], b as [sb | sb | | sb mb eb]; simpl;
    try discriminate; try (destruct sa, sb; simpl; congruence);
    try (destruct sa; simpl; congruence); try (destruct sb; simpl; congruence).
  rewrite (Z.compare_antisym ea eb).
  change (Pos.compare_cont Eq mb ma) with (Pos.compare_cont (CompOpp Eq) mb ma).
  rewrite <- (Pos.compare_cont_antisym ma mb Eq).
  destruct sa, sb; try congruence;
    destruct (ea ?= eb); simpl; try congruence;
    destruct (Pos.compare_cont Eq ma mb); simpl; congruence.
Qed.

Lemma pair_result_swap (c r : spec_float) :
  pair_result (c, r) = 1 -> pair_result (r, c) = 0.
Proof.
  unfold pair_result, float_gt. simpl.
  destruct (SFcompare c r) as [[]|] eqn:Hcmp; try done.
  intros _. by rewrite (SFcompare_Gt_swap _ _ Hcmp).
Qed.

(** Exchanging the chosen and the rejected scores never leaves a pair
    preferred on both sides: a position recorded as 1 is recorded as 0
    once the two score lists are swapped. *)
Theorem swapped_pair_not_preferred (score_chosen score_rejected : list spec_float)
    (i : nat) :
  record_results [] score_chosen score_rejected !! i = Some 1 ->
  record_results [] score_rejected score_chosen !! i = Some 0.
Proof.
  rewrite !record_results_app. simpl.
  rewrite !list_lookup_fmap, !list.lookup_zip_with.
  destruct (score_chosen !! i) as [c|]; simpl; [| done].
  destruct (score_rejected !! i) as [r|]; simpl; [| done].
  intros [= Hone]. by rewrite (pair_result_swap _ _ Hone).
Qed.

Lemma zip_fmap_same {A B C : Type} (g : A -> B) (h : A -> C) (l : list A) :
  zip (g <$> l) (h <$> l) = (fun x => (g x, h x)) <$> l.
Proof.
  induction l as [| x l IH]; [done |].
  rewrite !fmap_cons. cbn [zip_with]. f_equal. exact IH.
Qed.

Lemma concat_fmap_fmap {A B : Type} (f : A -> B) (ls : list (list A)) :
  concat (fmap (M := list) f <$> ls) = f <$> concat ls.
Proof.
  induction ls as [| l ls IH]; [done |].
  rewrite fmap_cons. cbn [concat]. by rewrite IH, fmap_app.
Qed.

Lemma extract_scores_Tensor (rc rr : list spec_float) :
  rc <> [] -> extract_scores (Tensor rc) (Tensor rr) = Ok (rc, rr).
Proof. by destruct rc. Qed.

Section Loop.
Context `{herm : Herm}.

(** Whatever the libraries return, the loop only appends to [results],
    and every entry it appends is 0 or 1: what was recorded for earlier
    batches is never changed. *)
Theorem inference_loop_only_appends (dpo : DPOInference)
    (dataloader : DataLoader TokenizedRow Batch) (batches : list (list nat))
    (results final : list Z) :
  inference_loop dpo dataloader batches results = Ok final ->
  exists new, final = results ++ new /\ Forall is_bit new.
Proof.
  revert results. induction batches as [| idxs batches IH]; intros results; simpl.
  - intros [= <-]. exists []. split; [by rewrite app_nil_r | constructor].
  - destruct (fetch dataloader idxs) as [batch|e]; simpl; [| done].
    destruct (inference_step dpo batch) as [[rc rr]|e]; simpl; [| done].
    destruct (extract_scores rc rr) as [[sc sr]|e]; simpl; [| done].
    intros Hloop. destruct (IH _ Hloop) as (new & -> & Hbits).
    rewrite record_results_app, <- app_assoc.
    eexists. split; [reflexivity |].
    apply Forall_app. split; [| done].
    apply Forall_fmap, Forall_forall. intros p _. apply pair_result_bit.
Qed.

(** When the reward of a record does not depend on the batch it is in, the
    results do not depend on the batch size: record by record, they are
    the comparison of its two rewards. *)
Theorem results_independent_of_batch_size (args : Args) (s : Setup)
    (tokenized : list TokenizedRow)
    (reward_chosen reward_rejected : TokenizedRow -> spec_float) :
  0 < batch_size args ->
  result_mapM (tokenize_row (setup_dpo s)) (setup_dataset s) = Ok tokenized ->
  (forall rows, rows <> [] ->
     exists batch,
       DPODataCollatorWithPadding (collator_of s) rows = Ok batch /\
       inference_step (setup_dpo s) batch =
         Ok (Tensor (reward_chosen <$> rows), Tensor (reward_rejected <$> rows))) ->
  run_inference args s =
  Ok ((fun t => pair_result (reward_chosen t, reward_rejected t)) <$> tokenized).
Proof.
  intros Hsize Htokenized Hstep.
  set (f := fun t => pair_result (reward_chosen t, reward_rejected t)).
  set (batches := BatchSampler (Z.to_nat (batch_size args)) false []
                    (SequentialSampler (length tokenized))).
  assert (Hconcat : concat batches = seq 0 (length tokenized)).
  { subst batches. by rewrite BatchSampler_concat. }
  destruct (fetch_chunks tokenized tokenized batches) as (chunks & Hchunks & Hcover).
  { rewrite Hconcat. apply (getitem_seq []). }
  assert (Hnonempty : Forall (fun rows : list TokenizedRow => rows <> []) chunks).
  { eapply Forall2_Forall_r.
    - eapply Forall2_impl; [exact Hchunks |]. intros idxs chunk Hm.
      apply result_mapM_length in Hm. exact Hm.
    - eapply Forall_impl; [apply BatchSampler_nonempty |].
      intros idxs Hne chunk Hl ->. simpl in Hl. destruct idxs; [done | discriminate]. }
  assert (Hper : Forall2 (fun rows res => batch_results s rows = Ok res)
                         chunks (fmap (M := list) f <$> chunks)).
  { clear Hchunks Hcover. induction Hnonempty as [| rows chunks Hne _ IH]; [constructor |].
    rewrite fmap_cons. constructor; [| exact IH].
    destruct (Hstep rows Hne) as (batch & Hcollate & Hinf).
    unfold batch_results, mbind, result_bind.
    rewrite Hcollate. cbv beta iota. rewrite Hinf. cbv beta iota.
    rewrite extract_scores_Tensor by (by destruct rows). cbv beta iota.
    rewrite record_results_app, zip_fmap_same, <- list_fmap_compose.
    reflexivity. }
  unfold run_inference. rewrite Htokenized. simpl. unfold DataLoader_new.
  destruct (Z.leb_spec (batch_size args) 0) as [Hle | _]; [lia |]. simpl.
  fold batches. fold (collator_of s).
  erewrite inference_loop_chunks; [| reflexivity | exact Hchunks | exact Hper].
  simpl. by rewrite concat_fmap_fmap, Hcover.
Qed.

End Loop.

(** ** Sums over the subsets (lines 178-184) *)

Lemma py_sum_app (l1 l2 : list Z) : py_sum (l1 ++ l2) = py_sum l1 + py_sum l2.
Proof.
  induction l1 as [| x l1 IH]; [done |].
  cbn [app]. rewrite !py_sum_cons, IH. lia.
Qed.

Lemma py_sum_Permutation (l1 l2 : list Z) : l1 ≡ₚ l2 -> py_sum l1 = py_sum l2.
Proof.
  induction 1 as [| x l1 l2 _ IH | x y l | l1 l2 l3 _ IH1 _ IH2].
  - done.
  - by rewrite !py_sum_cons, IH.
  - rewrite !py_sum_cons. lia.
  - by rewrite IH1.
Qed.

Lemma py_sum_fmap_add {A : Type} (a b : A -> Z) (l : list A) :
  py_sum ((fun x => a x + b x) <$> l) = py_sum (a <$> l) + py_sum (b <$> l).
Proof.
  induction l as [| x l IH]; [done |].
  rewrite !fmap_cons, !py_sum_cons, IH. lia.
Qed.

Lemma py_sum_indicator (key : string) (v : Z) (l : list string) :
  NoDup l ->
  py_sum ((fun s => if decide (key = s) then v else 0) <$> l) =
  if decide (key ∈ l) then v else 0.
Proof.
  induction 1 as [| s l Hnotin _ IH]; [done |].
  rewrite fmap_cons, py_sum_cons, IH.
  destruct (decide (key = s)) as [<- | Hne].
  - rewrite decide_False by done. rewrite decide_True by (by left). lia.
  - destruct (decide (key ∈ l)) as [Hin | Hnot].
    + rewrite decide_True by (by right). lia.
    + rewrite decide_False; [lia |]. by intros [? | ?]%elem_of_cons.
Qed.

Lemma length_as_sum {A : Type} (l : list A) :
  Z.of_nat (length l) = py_sum ((fun _ => 1) <$> l).
Proof.
  induction l as [| x l IH]; [done |].
  rewrite fmap_cons, py_sum_cons, <- IH. simpl. lia.
Qed.

Lemma NoDup_np_unique (labels : list string) : NoDup (np_unique labels).
Proof.
  unfold np_unique. rewrite merge_sort_Permutation. apply NoDup_remove_dups.
Qed.

(** Summing a column subset by subset gives the sum of the column, when
    the subsets are pairwise distinct and every row is in one of them. *)
Lemma sum_by_subset (g : OutRow -> Z) (out_dataset : list OutRow) (present : list string) :
  NoDup present ->
  (forall example, example ∈ out_dataset -> subset_of example ∈ present) ->
  py_sum ((fun subset => py_sum (g <$> filter_subset out_dataset subset)) <$> present) =
  py_sum (g <$> out_dataset).
Proof.
  intros Hnodup. induction out_dataset as [| example out IH]; intros Hall.
  - unfold filter_subset. simpl. clear. induction present as [| s present IH]; [done |].
    by rewrite fmap_cons, py_sum_cons, IH.
  - rewrite fmap_cons, py_sum_cons, <- IH by (intros x Hx; apply Hall; by right).
    pose proof (py_sum_indicator (subset_of example) (g example) present Hnodup) as Hind.
    rewrite decide_True in Hind by (apply Hall; by left).
    rewrite <- Hind at 1. rewrite <- py_sum_fmap_add. f_equal. apply list_fmap_ext. intros _ subset _.
    unfold filter_subset. rewrite filter_cons.
    destruct (decide (subset_of example = subset)) as [Heq | Hne].
    + by rewrite fmap_cons, py_sum_cons.
    + lia.
Qed.

(** When no label ends in a NUL character, the subsets partition the
    records: the [num_total] of the present subsets add up to the number
    of records, and their [num_correct] to the sum of all results. *)
Theorem subsets_partition_records (dataset : list (Row * Z)) (subsets : list string)
    (out_dataset : list OutRow) :
  no_trailing_nul subsets ->
  add_column dataset subsets = Ok out_dataset ->
  py_sum (num_total out_dataset <$> np_unique subsets) = Z.of_nat (length dataset) /\
  py_sum (num_correct out_dataset <$> np_unique subsets) = py_sum (snd <$> dataset).
Proof.
  intros Hnul [Hlen ->]%add_column_Ok.
  assert (Hall : forall example : OutRow,
            example ∈ zip dataset subsets -> subset_of example ∈ np_unique subsets).
  { intros [d sub] Hin. apply (elem_of_np_unique _ _ Hnul). by apply elem_of_zip_r in Hin. }
  pose proof (NoDup_np_unique subsets) as Hnodup.
  split.
  - transitivity (py_sum ((fun _ => 1) <$> zip dataset subsets)).
    + rewrite <- (sum_by_subset _ _ _ Hnodup Hall). f_equal.
      apply list_fmap_ext. intros _ subset _. unfold num_total.
      rewrite length_map. apply length_as_sum.
    + rewrite <- length_as_sum, length_zip. lia.
  - transitivity (py_sum (results_of <$> zip dataset subsets)).
    + rewrite <- (sum_by_subset _ _ _ Hnodup Hall). reflexivity.
    + f_equal. rewrite <- (fst_zip dataset subsets) at 2 by lia.
      rewrite <- list_fmap_compose. by apply list_fmap_ext.
Qed.


(** The grouped results do not depend on the order of the records. *)
Theorem scores_ignore_record_order (args : Args) (out1 out2 : list OutRow)
    (subsets : list string) :
  out1 ≡ₚ out2 ->
  group_results args out1 subsets = group_results args out2 subsets.
Proof.
  intros Hperm. unfold group_results.
  assert (Hc : forall subset, num_correct out1 subset = num_correct out2 subset).
  { intros subset. unfold num_correct, filter_subset.
    apply py_sum_Permutation. by rewrite Hperm. }
  assert (Ht : forall subset, num_total out1 subset = num_total out2 subset).
  { intros subset. unfold num_total, filter_subset. by rewrite !length_map, Hperm. }
  generalize (np_unique subsets) as present.
  generalize (<["chat_template" := JString (chat_template args)]>
                (<["model" := JString (model args)]> (∅ : gmap string json_value))).
  intros initial present. revert initial.
  induction present as [| subset present IH]; intros initial; [done |].
  cbn [group_subsets]. rewrite Hc, Ht.
  destruct (py_truediv (num_correct out2 subset) (num_total out2 subset)); simpl; [| done].
  apply IH.
Qed.

(** ** Edge cases of the run *)

Section Edges.
Context `{herm : Herm}.

(** An empty evaluation set needs no inference step: with a positive batch
    size the run evaluates to the two metadata entries alone. *)
Theorem empty_dataset_gives_metadata (args : Args) (s : Setup) :
  setup args = Ok s ->
  setup_dataset s = [] ->
  setup_subsets s = [] ->
  0 < batch_size args ->
  run_inference args s = Ok [] /\ evaluate args = Ok (metadata args).
Proof.
  intros Hsetup Hds Hsub Hsize.
  assert (Hrun : run_inference args s = Ok []).
  { unfold run_inference. rewrite Hds. simpl. unfold DataLoader_new.
    destruct (Z.leb_spec (batch_size args) 0); [lia | done]. }
  split; [exact Hrun |].
  unfold evaluate. rewrite Hsetup. simpl. rewrite Hrun. simpl.
  unfold process_results. rewrite Hds, Hsub. reflexivity.
Qed.

(** A batch size of zero or less is refused when the loader is built,
    after the dataset was tokenized: the run ends with [ValueError] and
    has written and uploaded nothing. *)
Theorem nonpositive_batch_size_raises (args : Args) (s : Setup) (w : World) :
  setup args = Ok s ->
  batch_size args <= 0 ->
  (forall row, row ∈ setup_dataset s -> exists t, tokenize_row (setup_dpo s) row = Ok t) ->
  main args w = Failed ValueError w.
Proof.
  intros Hsetup Hsize Htok.
  apply (run_inference_raise_main _ s _ _ Hsetup).
  destruct (result_mapM_total _ _ Htok) as [tokenized Htokenized].
  unfold run_inference. rewrite Htokenized. simpl. unfold DataLoader_new.
  destruct (Z.leb_spec (batch_size args) 0); [done | lia].
Qed.

(** The results can only be attached to the dataset when there is one
    result, and one subset label, per record; otherwise [add_column]
    raises [ValueError] and nothing is scored.  With matching lengths the
    outcome is that of the grouping, which succeeds when no label ends in
    a NUL character. *)
Theorem process_results_needs_matching_lengths (args : Args) (s : Setup)
    (results : list Z) :
  (length results = length (setup_dataset s) /\
   length (setup_subsets s) = length (setup_dataset s) ->
   process_results args s results =
   group_results args
     (out_dataset_of (setup_dataset s) results (setup_subsets s)) (setup_subsets s)) /\
  (length results = length (setup_dataset s) /\
   length (setup_subsets s) = length (setup_dataset s) /\
   no_trailing_nul (setup_subsets s) ->
   exists results_grouped, process_results args s results = Ok results_grouped) /\
  (~ (length results = length (setup_dataset s) /\
      length (setup_subsets s) = length (setup_dataset s)) ->
   process_results args s results = Raise ValueError).
Proof.
  split; [| split].
  - intros [Hres Hsub]. unfold process_results, add_column.
    rewrite bool_decide_eq_true_2 by done. simpl.
    rewrite bool_decide_eq_true_2 by (rewrite length_zip, Hres, Nat.min_id; exact Hsub).
    reflexivity.
  - intros (Hres & Hsub & Hnul).
    destruct (process_results_Ok args s results Hnul Hres Hsub) as (rg & Hrg & _).
    by exists rg.
  - intros Hnot. unfold process_results, add_column.
    case_bool_decide as Hres; simpl; [| done].
    case_bool_decide as Hsub; simpl; [| done].
    exfalso. apply Hnot. split; [done |].
    rewrite length_zip in Hsub. lia.
Qed.

Lemma save_blocked_by_file (dumped : string) (w : World) :
  os_path_isfile (fs w) metrics_dir = true ->
  save_results metrics_path dumped w = Failed FileExistsError w.
Proof.
  intros Hfile. unfold save_results. rewrite dirname_metrics_path.
  apply run_bind_Failed. rewrite bool_decide_eq_false_2 by done. simpl.
  unfold fs_update, os_makedirs. unfold os_path_isfile in Hfile.
  by destruct (fs w !! metrics_dir) as [[content|]|].
Qed.

Lemma save_blocked_by_directory (dumped : string) (w : World) :
  os_path_isfile (fs w) metrics_dir = false ->
  os_path_isdir (fs w) metrics_path = true ->
  save_results metrics_path dumped w =
  Failed IsADirectoryError {| fs := <[metrics_dir := Dir]> (fs w); hub := hub w |}.
Proof.
  intros Hdir Hfile. unfold save_results. rewrite dirname_metrics_path.
  unfold os_path_isfile in Hdir. unfold os_path_isdir in Hfile.
  set (w1 := {| fs := <[metrics_dir := Dir]> (fs w); hub := hub w |}).
  rewrite (run_bind_Done _ _ _ w1 tt).
  2:{ rewrite bool_decide_eq_false_2 by done. simpl.
      unfold fs_update, os_makedirs. subst w1.
      destruct (fs w !! metrics_dir) as [[content|]|] eqn:Hlook; [done | | done].
      by rewrite insert_id. }
  rewrite (run_bind_Done _ _ _ w1 (fs w1)) by done.
  rewrite (run_bind_Done _ _ _ w1 tt).
  2:{ unfold os_path_isfile. subst w1. simpl. rewrite lookup_insert_ne by done.
      by destruct (fs w !! metrics_path) as [[old|]|]. }
  apply run_bind_Failed. unfold fs_update, open_w. rewrite dirname_metrics_path.
  unfold os_path_isdir. subst w1. simpl.
  rewrite lookup_insert_eq. simpl. rewrite lookup_insert_ne by done.
  by destruct (fs w !! metrics_path) as [[old|]|].
Qed.


Lemma main_after_evaluate (args : Args) (results_grouped : gmap string json_value)
    (w : World) :
  evaluate args = Ok results_grouped ->
  main args w =
  match save_results metrics_path (json_dumps 4 results_grouped) w with
  | Done _ w1 => upload_results args metrics_path w1
  | Failed e w1 => Failed e w1
  end.
Proof.
  intros Heval. unfold main.
  rewrite (run_bind_Done _ _ _ w results_grouped) by (unfold lift_result; by rewrite Heval).
  reflexivity.
Qed.

(** The remote repository changes only in a run that was not told
    [--do_not_save], whose evaluation succeeded and whose local write was
    possible. *)
Theorem hub_changes_only_after_local_write (args : Args) (w : World) :
  hub (final_world (main args w)) <> hub w ->
  do_not_save args = false /\
  (exists results_grouped, evaluate args = Ok results_grouped) /\
  can_save (fs w).
Proof.
  intros Hchanged. destruct (evaluate args) as [rg|e] eqn:Heval.
  2:{ by rewrite (main_evaluate_raise _ _ _ Heval) in Hchanged. }
  destruct (os_path_isfile (fs w) metrics_dir) eqn:Hdir.
  { rewrite (main_after_evaluate _ _ _ Heval), save_blocked_by_file in Hchanged; done. }
  destruct (os_path_isdir (fs w) metrics_path) eqn:Hfile.
  { rewrite (main_after_evaluate _ _ _ Heval), save_blocked_by_directory in Hchanged; done. }
  assert (Hsave : can_save (fs w)) by done.
  rewrite (main_outcome _ _ _ Heval Hsave) in Hchanged.
  destruct (do_not_save args); [done |].
  split; [done |]. split; [by exists rg | done].
Qed.

End Edges.

(** ** The further properties on the small instance *)

Lemma loader_batches_consecutive_witness :
  DataLoader_new demo_dataset 2 (fun rows : list Row => Ok rows) false = Ok demo_dataloader /\
  dl_batch_sampler demo_dataloader !! 1%nat =
  if decide (1 * Z.to_nat 2 < length demo_dataset)%nat
  then Some (seq (1 * Z.to_nat 2)
               (Nat.min (Z.to_nat 2) (length demo_dataset - 1 * Z.to_nat 2)))
  else None.
Proof.
  split; [reflexivity |].
  apply (loader_batches_consecutive demo_dataset 2 (fun rows : list Row => Ok rows)
           demo_dataloader 1).
  reflexivity.
Defined.

Lemma loader_step_count_witness :
  DataLoader_new demo_dataset 2 (fun rows : list Row => Ok rows) false = Ok demo_dataloader /\
  length (dl_batch_sampler demo_dataloader) =
  ((length demo_dataset + Z.to_nat 2 - 1) / Z.to_nat 2)%nat.
Proof.
  split; [reflexivity |].
  apply (loader_step_count demo_dataset 2 (fun rows : list Row => Ok rows) demo_dataloader).
  reflexivity.
Defined.

Lemma swapped_pair_witness :
  record_results [] [float_of_int 3; float_of_int 2] [float_of_int 1; float_of_int 2]
    !! 0%nat = Some 1 /\
  record_results [] [float_of_int 1; float_of_int 2] [float_of_int 3; float_of_int 2]
    !! 0%nat = Some 0.
Proof.
  split; [reflexivity |].
  apply (swapped_pair_not_preferred [float_of_int 3; float_of_int 2]
           [float_of_int 1; float_of_int 2] 0).
  reflexivity.
Defined.

Lemma inference_loop_appends_witness :
  @inference_loop demo_libraries demo_herm (setup_dpo demo_setup) demo_dataloader
    [[0; 1]; [2]]%nat [1] = Ok [1; 1; 0; 1] /\
  exists new, [1; 1; 0; 1] = [1] ++ new /\ Forall is_bit new.
Proof.
  split; [reflexivity |].
  apply (@inference_loop_only_appends demo_libraries demo_herm (setup_dpo demo_setup)
           demo_dataloader [[0; 1]; [2]]%nat [1] [1; 1; 0; 1]).
  reflexivity.
Defined.

Lemma batch_size_independence_witness :
  0 < batch_size demo_args /\
  @run_inference demo_libraries demo_herm demo_args demo_setup =
  Ok ((fun t : Row => pair_result (demo_reward (text_chosen t), demo_reward (text_rejected t)))
        <$> demo_dataset).
Proof.
  split; [reflexivity |].
  apply (@results_independent_of_batch_size demo_libraries demo_herm demo_args demo_setup
           demo_dataset (demo_reward ∘ text_chosen) (demo_reward ∘ text_rejected)).
  - reflexivity.
  - reflexivity.
  - intros rows _. exists rows. split; reflexivity.
Defined.

Lemma subsets_partition_witness :
  no_trailing_nul demo_subsets /\
  add_column (zip demo_dataset demo_results) demo_subsets = Ok demo_out_dataset /\
  py_sum (num_total demo_out_dataset <$> np_unique demo_subsets)
    = Z.of_nat (length (zip demo_dataset demo_results)) /\
  py_sum (num_correct demo_out_dataset <$> np_unique demo_subsets)
    = py_sum (snd <$> zip demo_dataset demo_results).
Proof.
  split; [exact demo_subsets_no_nul |]. split; [reflexivity |].
  apply (subsets_partition_records (zip demo_dataset demo_results) demo_subsets
           demo_out_dataset).
  - exact demo_subsets_no_nul.
  - reflexivity.
Defined.



Lemma record_order_witness :
  demo_out_dataset ≡ₚ reverse demo_out_dataset /\
  group_results demo_args demo_out_dataset demo_subsets =
  group_results demo_args (reverse demo_out_dataset) demo_subsets.
Proof.
  assert (Hperm : demo_out_dataset ≡ₚ reverse demo_out_dataset)
    by (symmetry; apply reverse_Permutation).
  split; [exact Hperm |].
  apply (scores_ignore_record_order demo_args demo_out_dataset (reverse demo_out_dataset)
           demo_subsets).
  exact Hperm.
Defined.

Lemma empty_dataset_witness :
  @setup demo_libraries empty_herm demo_args = Ok empty_setup /\
  @run_inference demo_libraries empty_herm demo_args empty_setup = Ok [] /\
  @evaluate demo_libraries empty_herm demo_args = Ok (metadata demo_args).
Proof.
  split; [reflexivity |].
  apply (@empty_dataset_gives_metadata demo_libraries empty_herm demo_args empty_setup);
    reflexivity.
Defined.

Lemma nonpositive_batch_size_witness :
  @setup demo_libraries demo_herm demo_args_zero_batch = Ok demo_setup /\
  batch_size demo_args_zero_batch <= 0 /\
  @main demo_libraries demo_herm demo_args_zero_batch demo_world
    = Failed ValueError demo_world.
Proof.
  split; [reflexivity |]. split; [reflexivity |].
  apply (@nonpositive_batch_size_raises demo_libraries demo_herm demo_args_zero_batch
           demo_setup demo_world).
  - reflexivity.
  - discriminate.
  - intros row _. by eexists.
Defined.

Lemma hub_changes_witness :
  hub (final_world (@main demo_libraries demo_herm demo_args demo_world)) <> hub demo_world /\
  do_not_save demo_args = false /\
  (exists results_grouped,
     @evaluate demo_libraries demo_herm demo_args = Ok results_grouped) /\
  can_save (fs demo_world).
Proof.
  assert (Hchanged : hub (final_world (@main demo_libraries demo_herm demo_args demo_world))
                     <> hub demo_world) by (vm_compute; discriminate).
  split; [exact Hchanged |].
  apply (@hub_changes_only_after_local_write demo_libraries demo_herm demo_args demo_world).
  exact Hchanged.
Defined.
